(** * A model of the Azure OpenAI travel-assistant chatbot (main.py)

    The chatbot is a sequential program: a session object
    ([AzureOpenAIChatbot]) holding the conversation history, two remote
    calls (moderation and chat completion), a transcript file that is only
    ever appended to, a logger and the console.

    The embedding follows the Python code method by method.  Everything the
    program cannot decide by itself (what the remote service answers, whether
    a file operation fails, what the clock shows, whether the client
    constructor accepts its arguments) is an oracle of the record [Env];
    every theorem quantifies over it.  Exceptions are explicit: a computation
    returns a value or raises, and [try_except] catches what Python's
    [except Exception] catches, which leaves [KeyboardInterrupt] through.

    A Python [str] is modelled by the [string] of the bytes of its UTF-8
    encoding.  [strip] removes Python's white space, the characters beyond
    ASCII included; [lower] is computed on ASCII text and left to the
    environment on other text, whose case tables are not part of the
    program.  A value that is a [str] or [None] is a [Content]. *)

From Stdlib Require Import List String Ascii Bool Arith Lia QArith.
Import ListNotations.
Open Scope string_scope.
Open Scope nat_scope.
Open Scope list_scope.

(** ** Text operations used by the program *)

Module Text.

(** The line feed, written [\n] in the Python literals. *)
Definition nl : string := String (ascii_of_nat 10) EmptyString.

(** White space, as [str.isspace] and [str.strip] have it, by the bytes of
    the encoding.  One byte: U+0009 to U+000D, U+001C to U+001F and the
    blank. *)
Definition space1 (a : ascii) : bool :=
  let n := nat_of_ascii a in
  ((9 <=? n) && (n <=? 13)) || ((28 <=? n) && (n <=? 32)).

(** Two bytes: U+0085 (C2 85) and U+00A0 (C2 A0). *)
Definition space2 (a b : ascii) : bool :=
  (nat_of_ascii a =? 194) &&
  ((nat_of_ascii b =? 133) || (nat_of_ascii b =? 160)).

(** Three bytes: U+1680 (E1 9A 80), U+2000 to U+200A (E2 80 80 to E2 80 8A),
    U+2028, U+2029 and U+202F (E2 80 A8, A9, AF), U+205F (E2 81 9F) and
    U+3000 (E3 80 80). *)
Definition space3 (a b c : ascii) : bool :=
  let x := nat_of_ascii a in
  let y := nat_of_ascii b in
  let z := nat_of_ascii c in
  ((x =? 225) && (y =? 154) && (z =? 128)) ||
  ((x =? 226) && (y =? 128) &&
   (((128 <=? z) && (z <=? 138)) || (z =? 168) || (z =? 169) || (z =? 175))) ||
  ((x =? 226) && (y =? 129) && (z =? 159)) ||
  ((x =? 227) && (y =? 128) && (z =? 128)).

(** [str.lstrip()]: the white space at the beginning goes, one character
    of one, two or three bytes at a time. *)
Fixpoint lstrip (s : string) : string :=
  match s with
  | EmptyString => EmptyString
  | String a t1 =>
      if space1 a then lstrip t1
      else
        match t1 with
        | EmptyString => s
        | String b t2 =>
            if space2 a b then lstrip t2
            else
              match t2 with
              | EmptyString => s
              | String c t3 => if space3 a b c then lstrip t3 else s
              end
        end
  end.

(** The same from the end, on the bytes in reverse order: a character of
    several bytes is recognised by its last bytes, since a byte that begins
    a character never continues one. *)
Fixpoint rstrip_reversed (l : list ascii) : list ascii :=
  match l with
  | [] => []
  | c :: t1 =>
      if space1 c then rstrip_reversed t1
      else
        match t1 with
        | [] => l
        | b :: t2 =>
            if space2 b c then rstrip_reversed t2
            else
              match t2 with
              | [] => l
              | a :: t3 => if space3 a b c then rstrip_reversed t3 else l
              end
        end
  end.

(** [str.rstrip()] *)
Definition rstrip (s : string) : string :=
  string_of_list_ascii (rev (rstrip_reversed (rev (list_ascii_of_string s)))).

(** [str.strip()] *)
Definition strip (s : string) : string := rstrip (lstrip s).

(** A text of ASCII characters only. *)
Fixpoint is_ascii (s : string) : bool :=
  match s with
  | EmptyString => true
  | String c t => (nat_of_ascii c <? 128) && is_ascii t
  end.

Definition lower_char (c : ascii) : ascii :=
  let n := nat_of_ascii c in
  if (65 <=? n) && (n <=? 90) then ascii_of_nat (n + 32) else c.

(** [str.lower()] on ASCII text. *)
Fixpoint lower_ascii (s : string) : string :=
  match s with
  | EmptyString => EmptyString
  | String c t => String (lower_char c) (lower_ascii t)
  end.

(** [sep.join(l)] *)
Fixpoint join (sep : string) (l : list string) : string :=
  match l with
  | [] => ""
  | [x] => x
  | x :: t => x ++ sep ++ join sep t
  end.

(** [s * n] *)
Fixpoint times (s : string) (n : nat) : string :=
  match n with
  | O => ""
  | S k => s ++ times s k
  end.

End Text.

Import Text.

(** ** Data model *)

Inductive Role := system | user | assistant.

(** A value that is a [str] or [None]: the content of a completion, which
    the service may leave null, and whatever the program makes of it. *)
Inductive Content := Str (s : string) | NoneValue.
Coercion Str : string >-> Content.

(** [f"{c}"] *)
Definition format (c : Content) : string :=
  match c with
  | Str s => s
  | NoneValue => "None"
  end.

(** A message is the dict [{"role": ..., "content": ...}]. *)
Record Message := mkMessage { role : Role; content : Content }.

Definition Role_eqb (a b : Role) : bool :=
  match a, b with
  | system, system | user, user | assistant, assistant => true
  | _, _ => false
  end.

(** What [openai.AzureOpenAI(...)] was given. *)
Record Client := mkClient {
  azure_endpoint : option string;
  api_key : option string;
  api_version : option string
}.

(** The attributes of an [AzureOpenAIChatbot] instance. *)
Record Bot := mkBot {
  client : Client;
  deployed_model : option string;
  conversation_history : list Message;
  system_prompt : string
}.

Inductive Level := INFO | WARNING | ERROR.

(** The keyword arguments of the completion request besides the model and
    the messages. *)
Record Sampling := mkSampling {
  max_tokens : nat;
  temperature : Q;
  top_p : Q;
  frequency_penalty : Q;
  presence_penalty : Q
}.

(** A remote request, as it leaves the program. *)
Inductive Call :=
| ModerationsCreate (input : string)
| ChatCompletionsCreate (model : option string) (messages : list Message)
                        (sampling : Sampling).

(** Everything outside the session object that the program changes:
    the console, the log records, the transcript file
    [conversation_log.txt] and the requests sent so far. *)
Record World := mkWorld {
  stdout : list string;
  logs : list (Level * string);
  conversation_log : string;
  calls : list Call
}.

Record State := mkState { self : Bot; world : World }.

(** ** Exceptions and results *)

(** [Exception d] stands for any instance of Python's [Exception] whose
    [str()] is [d]; [KeyboardInterrupt] is not an [Exception]. *)
Inductive exn := Exception (detail : string) | KeyboardInterrupt.

Inductive result (A : Type) := Return (a : A) | Raise (e : exn).
Arguments Return {A} & a.
Arguments Raise {A} e.

(** One entry of [response.results] of a moderation response. *)
Record Moderation := mkModeration {
  flagged : bool;
  categories : list (string * bool)
}.

(** ** The environment *)

Record Env := mkEnv {
  (** [openai.AzureOpenAI(azure_endpoint, api_key, api_version)]: [None]
      when the constructor accepts its arguments. *)
  AzureOpenAI : option string -> option string -> option string -> option exn;
  (** [logging.FileHandler('chatbot.log')] *)
  FileHandler : World -> option exn;
  (** [client.moderations.create(input=text)]: the list [response.results] *)
  moderations_create : State -> string -> result (list Moderation);
  (** [client.chat.completions.create(...)]: the [message.content] of each
      entry of [response.choices] *)
  chat_completions_create :
    State -> option string -> list Message -> Sampling -> result (list Content);
  (** [datetime.now().isoformat()] *)
  now_isoformat : State -> string;
  (** [open("conversation_log.txt", "a", encoding='utf-8')] *)
  open_append : State -> option exn;
  (** [f.write(text)] on the transcript, given what the file object has
      buffered since it was opened *)
  file_write : State -> string -> string -> option exn;
  (** Closing the file when the [with] block is left, given what is
      buffered: [None] when all of it reaches the file, or the exception
      raised and the number of bytes that reached the file before it *)
  file_close : State -> string -> option (exn * nat);
  (** [str.lower()] on a text that is not all ASCII *)
  unicode_lower : string -> string
}.

(** ** Computations: state passing with exceptions *)

Definition M (A : Type) : Type := State -> result A * State.

Definition ret {A} (a : A) : M A := fun s => (Return a, s).

Definition bind {A B} (c : M A) (k : A -> M B) : M B :=
  fun s =>
    match c s with
    | (Return a, s') => k a s'
    | (Raise e, s') => (Raise e, s')
    end.

Definition raise {A} (e : exn) : M A := fun s => (Raise e, s).

Notation "x <- c ;; k" := (bind c (fun x => k))
  (at level 100, c at next level, right associativity).
Notation "c ;;; k" := (bind c (fun _ => k))
  (at level 100, right associativity).

(** [try: c  except Exception as e: h(str(e))] *)
Definition try_except {A} (c : M A) (h : string -> M A) : M A :=
  fun s =>
    match c s with
    | (Raise (Exception d), s') => h d s'
    | r => r
    end.

(** *** Primitive effects *)

Definition with_world (f : World -> World) (s : State) : State :=
  mkState (self s) (f (world s)).

Definition with_self (f : Bot -> Bot) (s : State) : State :=
  mkState (f (self s)) (world s).

Definition put_stdout (line : string) (w : World) : World :=
  mkWorld (stdout w ++ [line]) (logs w) (conversation_log w) (calls w).

Definition put_log (l : Level) (msg : string) (w : World) : World :=
  mkWorld (stdout w) (logs w ++ [(l, msg)]) (conversation_log w) (calls w).

Definition put_call (c : Call) (w : World) : World :=
  mkWorld (stdout w) (logs w) (conversation_log w) (calls w ++ [c]).

Definition put_text (text : string) (w : World) : World :=
  mkWorld (stdout w) (logs w) (conversation_log w ++ text) (calls w).

Definition set_history (h : list Message) (b : Bot) : Bot :=
  mkBot (client b) (deployed_model b) h (system_prompt b).

(** [print(line)] *)
Definition print (line : string) : M unit :=
  fun s => (Return tt, with_world (put_stdout line) s).

(** [self.logger.<level>(msg)] *)
Definition logger (l : Level) (msg : string) : M unit :=
  fun s => (Return tt, with_world (put_log l msg) s).

(** [l[0]] *)
Definition item0 {A} (l : list A) : M A :=
  match l with
  | x :: _ => ret x
  | [] => raise (Exception "list index out of range")
  end.

(** ** The chatbot *)

Definition TRAVEL_PROMPT : string :=
  "You are a helpful travel assistant. Provide friendly, informative advice about travel destinations, planning, and tips.".

(** [max_tokens=500, temperature=0.7, top_p=0.95, frequency_penalty=0,
    presence_penalty=0] *)
Definition SAMPLING : Sampling := mkSampling 500 (7 # 10) (95 # 100) 0 0.

Section Chatbot.

Variable env : Env.

(** *** [__init__] and [setup_logging] *)

Definition setup_logging (w : World) : result unit * World :=
  match FileHandler env w with
  | Some e => (Raise e, w)
  | None => (Return tt, w)
  end.

Definition init (endpoint key model version : option string) (w : World)
  : result Bot * World :=
  match AzureOpenAI env endpoint key version with
  | Some e => (Raise e, w)
  | None =>
      let bot := mkBot (mkClient endpoint key version) model [] TRAVEL_PROMPT in
      match setup_logging w with
      | (Return _, w') => (Return bot, w')
      | (Raise e, w') => (Raise e, w')
      end
  end.

(** *** The two remote requests *)

Definition request_moderation (text : string) : M (list Moderation) :=
  fun s =>
    (moderations_create env s text,
     with_world (put_call (ModerationsCreate text)) s).

Definition request_completion (model : option string) (messages : list Message)
  : M (list Content) :=
  fun s =>
    (chat_completions_create env s model messages SAMPLING,
     with_world (put_call (ChatCompletionsCreate model messages SAMPLING)) s).

(** *** [moderate_content] *)

Definition moderate_content (text : string) : M bool :=
  try_except
    (response <- request_moderation text ;;
     results <- item0 response ;;
     if flagged results then
       let flagged_categories :=
         map fst (filter (fun kv => snd kv) (categories results)) in
       logger WARNING ("Content flagged for: " ++ join ", " flagged_categories) ;;;
       ret false
     else ret true)
    (fun e =>
       logger ERROR ("Content moderation failed: " ++ e) ;;;
       print "Content moderation unavailable, proceeding without filtering..." ;;;
       ret true).

(** *** [get_ai_response] *)

(** [l[-n:]] *)
Definition last_n {A} (n : nat) (l : list A) : list A :=
  skipn (List.length l - n) l.

(** The list built on lines 67-74: the system prompt, the recent history,
    the current user message. *)
Definition build_messages (b : Bot) (user_message : string) : list Message :=
  let messages := [mkMessage system (system_prompt b)] in
  let recent_history := last_n 20 (conversation_history b) in
  let messages := messages ++ recent_history in
  messages ++ [mkMessage user user_message].

Definition get_ai_response (user_message : string) : M Content :=
  try_except
    (fun s =>
       (choices <- request_completion (deployed_model (self s))
                     (build_messages (self s) user_message) ;;
        item0 choices) s)
    (fun e =>
       logger ERROR ("Error getting AI response: " ++ e) ;;;
       ret (Str ("Sorry, I encountered an error: " ++ e))).

(** *** [save_conversation] *)

Definition now : M string := fun s => (Return (now_isoformat env s), s).

(** [self.conversation_history.extend(l)] *)
Definition extend_history (l : list Message) : M unit :=
  fun s =>
    (Return tt,
     with_self (fun b => set_history (conversation_history b ++ l) b) s).

(** What the body of a [with] block does with the file object: it starts
    from the text buffered so far and leaves the text buffered after it.
    The writes of a block stay in the buffer of the file object until the
    block is left. *)
Definition Buffered (A : Type) : Type := string -> result A * string.

(** [f.write(text)], in the session state [s] *)
Definition f_write (s : State) (text : string) : Buffered unit :=
  fun pending =>
    match file_write env s pending text with
    | Some e => (Raise e, pending)
    | None => (Return tt, (pending ++ text)%string)
    end.

(** One statement of the block after the other. *)
Definition and_then (a b : Buffered unit) : Buffered unit :=
  fun pending =>
    match a pending with
    | (Return _, pending') => b pending'
    | (Raise e, pending') => (Raise e, pending')
    end.

(** [with open("conversation_log.txt", "a", encoding='utf-8') as f: body].
    Leaving the block closes the file, whether the body raised or not:
    what is buffered goes to the file, all of it unless the closing fails,
    and an exception of the closing is the one that leaves the block. *)
Definition with_open_append (body : State -> Buffered unit) : M unit :=
  fun s =>
    match open_append env s with
    | Some e => (Raise e, s)
    | None =>
        let (r, pending) := body s "" in
        match file_close env s pending with
        | None => (r, with_world (put_text pending) s)
        | Some (e, reached) =>
            (Raise e, with_world (put_text (substring 0 reached pending)) s)
        end
    end.

(** The [with] statement of lines 105-109. *)
Definition append_block (timestamp user_message : string) (ai_response : Content)
  : M unit :=
  with_open_append
    (fun s =>
       and_then (f_write s (nl ++ "[" ++ timestamp ++ "]" ++ nl))
      (and_then (f_write s ("User: " ++ user_message ++ nl))
      (and_then (f_write s ("Assistant: " ++ format ai_response ++ nl))
                (f_write s (times "-" 50 ++ nl))))).

Definition save_conversation (user_message : string) (ai_response : Content)
  : M unit :=
  timestamp <- now ;;
  extend_history [mkMessage user user_message;
                  mkMessage assistant ai_response] ;;;
  try_except
    (append_block timestamp user_message ai_response)
    (fun e => logger ERROR ("Error saving conversation to text file: " ++ e)).

(** *** [run_chatbot] *)

Inductive Control := Continue | Break.

(** [input(prompt)]: the prompt goes to the console, then the line typed
    is returned, or the exception of the read is raised. *)
Definition input (prompt : string) (typed : result string) : M string :=
  fun s => (typed, with_world (put_stdout prompt) s).

(** The prompt of line 126 (a line feed, the speech-balloon sign, [You:]). *)
Definition PROMPT : string := nl ++ "💬 You: ".

(** [str.lower()]: computed on ASCII text, the environment's on other
    text. *)
Definition lower (s : string) : string :=
  if is_ascii s then lower_ascii s else unicode_lower env s.

(** The body of the [try] of one turn of the [while True] loop. *)
Definition turn_body (typed : result string) : M Control :=
  raw <- input PROMPT typed ;;
  let user_input := strip raw in
  if (lower user_input =? "exit")%string then
    print (nl ++ "Thanks for chatting! Have a great trip!") ;;;
    ret Break
  else if (lower user_input =? "clear")%string then
    (fun s => (Return tt, with_self (set_history []) s)) ;;;
    print "Conversation history cleared!" ;;;
    ret Continue
  else if (user_input =? "")%string then
    print "Please enter a message!" ;;;
    ret Continue
  else
    allowed <- moderate_content user_input ;;
    if negb allowed then
      print "Sorry, your message contains inappropriate content. Please try again." ;;;
      ret Continue
    else
      print (nl ++ "Thinking...") ;;;
      ai_response <- get_ai_response user_input ;;
      print (nl ++ "Assistant: " ++ format ai_response) ;;;
      save_conversation user_input ai_response ;;;
      ret Continue.

(** One turn of the loop with its two handlers. *)
Definition turn (typed : result string) : M Control :=
  fun s =>
    match turn_body typed s with
    | (Raise KeyboardInterrupt, s') =>
        (print (nl ++ nl ++ " Goodbye!") ;;; ret Break) s'
    | (Raise (Exception e), s') =>
        (print (nl ++ "An error occurred: " ++ e) ;;;
         logger ERROR ("Unexpected error in main loop: " ++ e) ;;;
         ret Continue) s'
    | r => r
    end.

(** How a run over finitely many reads ends: the loop was left, or it is
    waiting for the next read. *)
Inductive Status := Exited | Reading.

Fixpoint loop (reads : list (result string)) : M Status :=
  match reads with
  | [] => ret Reading
  | typed :: rest =>
      c <- turn typed ;;
      match c with
      | Break => ret Exited
      | Continue => loop rest
      end
  end.

Definition run_chatbot (reads : list (result string)) : M Status :=
  print "" ;;;
  print (times "=" 40) ;;;
  print "Azure OpenAI Travel Assistant" ;;;
  print (times "=" 40) ;;;
  print "" ;;;
  print "Hi! I'm your travel assistant. Ask me anything about travel!" ;;;
  print "Type 'exit' to quit, 'clear' to clear conversation history" ;;;
  print (times "-" 40) ;;;
  loop reads.

(** *** [main] *)

(** What is left when [main] is over: the session object if one was
    constructed, how [main] ended, and the world. *)
Inductive Ending := Returned (st : option Status) | Propagated (e : exn).

Record Run := mkRun {
  chatbot : option Bot;
  ending : Ending;
  after : World
}.

(** The handler of [main]. *)
Definition report_failure (e : string) (w : World) : World :=
  put_stdout "Please check your Azure OpenAI credentials and try again."
    (put_stdout ("Failed to initialize chatbot: " ++ e) w).

Definition main (getenv : string -> option string)
           (reads : list (result string)) (w : World) : Run :=
  let openai_endpoint := getenv "OPENAI_API_ENDPOINT" in
  let openai_api_key := getenv "OPENAI_API_KEY" in
  let openai_api_version := getenv "OPENAI_API_VERSION" in
  let openai_deployed_model := getenv "OPENAI_DEPLOYED_MODEL" in
  match init openai_endpoint openai_api_key openai_deployed_model
             openai_api_version w with
  | (Raise (Exception e), w') => mkRun None (Returned None) (report_failure e w')
  | (Raise KeyboardInterrupt, w') => mkRun None (Propagated KeyboardInterrupt) w'
  | (Return bot, w') =>
      match run_chatbot reads (mkState bot w') with
      | (Return st, s) => mkRun (Some (self s)) (Returned (Some st)) (world s)
      | (Raise (Exception e), s) =>
          mkRun (Some (self s)) (Returned None) (report_failure e (world s))
      | (Raise KeyboardInterrupt, s) =>
          mkRun (Some (self s)) (Propagated KeyboardInterrupt) (world s)
      end
  end.

End Chatbot.

(** ** Sample environments

    A service that answers, a clock that stands still and a disk that works;
    the variants below change one oracle each. *)

Module Sample.

(** The client constructor as the service library behaves on the three
    arguments it is given: it refuses a missing one. *)
Definition strict_client (endpoint key version : option string) : option exn :=
  match key, version, endpoint with
  | None, _, _ => Some (Exception "Missing credentials.")
  | _, None, _ => Some (Exception "Must provide the api_version argument.")
  | _, _, None => Some (Exception "Must provide the azure_endpoint argument.")
  | _, _, _ => None
  end.

Definition polite : list Moderation :=
  [mkModeration false [("hate", false); ("violence", false)]].

Definition rude : list Moderation :=
  [mkModeration true [("hate", true); ("sexual", false); ("violence", true)]].

Definition env : Env :=
  mkEnv strict_client
        (fun _ => None)
        (fun _ _ => Return polite)
        (fun _ _ _ _ => Return [Str "Hi there!"])
        (fun _ => "2024-05-01T10:30:00.000000")
        (fun _ => None)
        (fun _ _ _ => None)
        (fun _ _ => None)
        (fun text => text).

Definition with_moderation (f : State -> string -> result (list Moderation))
           (e : Env) : Env :=
  mkEnv (AzureOpenAI e) (FileHandler e) f (chat_completions_create e)
        (now_isoformat e) (open_append e) (file_write e) (file_close e)
        (unicode_lower e).

Definition with_completion
           (f : State -> option string -> list Message -> Sampling ->
                result (list Content)) (e : Env) : Env :=
  mkEnv (AzureOpenAI e) (FileHandler e) (moderations_create e) f
        (now_isoformat e) (open_append e) (file_write e) (file_close e)
        (unicode_lower e).

Definition with_open (f : State -> option exn) (e : Env) : Env :=
  mkEnv (AzureOpenAI e) (FileHandler e) (moderations_create e)
        (chat_completions_create e) (now_isoformat e) f (file_write e)
        (file_close e) (unicode_lower e).

Definition with_write (f : State -> string -> string -> option exn) (e : Env)
  : Env :=
  mkEnv (AzureOpenAI e) (FileHandler e) (moderations_create e)
        (chat_completions_create e) (now_isoformat e) (open_append e) f
        (file_close e) (unicode_lower e).

Definition with_close (f : State -> string -> option (exn * nat)) (e : Env)
  : Env :=
  mkEnv (AzureOpenAI e) (FileHandler e) (moderations_create e)
        (chat_completions_create e) (now_isoformat e) (open_append e)
        (file_write e) f (unicode_lower e).

(** The no-break space U+00A0, which [str.strip] removes. *)
Definition nbsp : string :=
  String (ascii_of_nat 194) (String (ascii_of_nat 160) EmptyString).

(** The ideographic space U+3000, white space too. *)
Definition wide_space : string :=
  String (ascii_of_nat 227)
    (String (ascii_of_nat 128) (String (ascii_of_nat 128) EmptyString)).

(** A process environment with the four variables set. *)
Definition getenv (k : string) : option string :=
  if (k =? "OPENAI_API_ENDPOINT")%string then Some "https://travel.example.net/"
  else if (k =? "OPENAI_API_KEY")%string then Some "k-123"
  else if (k =? "OPENAI_API_VERSION")%string then Some "2024-02-01"
  else if (k =? "OPENAI_DEPLOYED_MODEL")%string then Some "gpt-4o"
  else None.

(** The same with one variable removed. *)
Definition unset (name : string) (g : string -> option string)
  : string -> option string :=
  fun k => if (k =? name)%string then None else g k.

Definition empty_world : World := mkWorld [] [] "" [].

Definition bot : Bot :=
  mkBot (mkClient (Some "https://travel.example.net/") (Some "k-123")
                  (Some "2024-02-01"))
        (Some "gpt-4o") [] TRAVEL_PROMPT.

(** A fresh session. *)
Definition fresh : State := mkState bot empty_world.

(** A session after one exchange. *)
Definition chatted : State :=
  mkState (set_history [mkMessage user "Hello"; mkMessage assistant "Hi there!"] bot)
          (mkWorld [] [] "" []).

End Sample.

(** ** The vocabulary of the statements *)

(** The pair of entries of one exchange. *)
Definition exchange (u : string) (r : Content) : list Message :=
  [mkMessage user u; mkMessage assistant r].

(** The four texts written for one exchange, in the order of the writes. *)
Definition lines (timestamp u : string) (r : Content) : list string :=
  [(nl ++ "[" ++ timestamp ++ "]" ++ nl)%string;
   ("User: " ++ u ++ nl)%string;
   ("Assistant: " ++ format r ++ nl)%string;
   (times "-" 50 ++ nl)%string].

(** The block of the transcript for one exchange. *)
Definition block (timestamp u : string) (r : Content) : string :=
  (nl ++ "[" ++ timestamp ++ "]" ++ nl)
  ++ ("User: " ++ u ++ nl)
  ++ ("Assistant: " ++ format r ++ nl)
  ++ (times "-" 50 ++ nl).

(** What a sequence of writes leaves in the buffer of the file object: the
    texts, one after the other, up to the first write that is refused. *)
Fixpoint buffered (env : Env) (s : State) (pending : string)
         (texts : list string) : string :=
  match texts with
  | [] => pending
  | text :: rest =>
      match file_write env s pending text with
      | Some _ => pending
      | None => buffered env s (pending ++ text) rest
      end
  end.

(** The exception of the first write that is refused, if one is. *)
Fixpoint refused (env : Env) (s : State) (pending : string)
         (texts : list string) : option exn :=
  match texts with
  | [] => None
  | text :: rest =>
      match file_write env s pending text with
      | Some e => Some e
      | None => refused env s (pending ++ text) rest
      end
  end.



(** The history is made of exchanges: a user entry, then an assistant
    entry, and so on. *)
Fixpoint alternating (h : list Message) : bool :=
  match h with
  | [] => true
  | q :: a :: rest =>
      Role_eqb (role q) user && Role_eqb (role a) assistant && alternating rest
  | [_] => false
  end.

(** The session with the exchange appended to its history: the state in
    which [save_conversation] starts to write. *)
Definition extended (u : string) (r : Content) (s : State) : State :=
  with_self (fun b => set_history (conversation_history b ++ exchange u r) b) s.

(** How the [with] statement of [save_conversation] ends. *)
Definition written (env : Env) (u : string) (r : Content) (s : State)
  : result unit :=
  fst (append_block env (now_isoformat env s) u r (extended u r s)).

(** The state once the prompt of [input] is on the console. *)
Definition prompted (s : State) : State := with_world (put_stdout PROMPT) s.

(** An input that is neither of the two commands nor empty. *)
Definition is_message (env : Env) (text : string) : Prop :=
  lower env text <> "exit" /\ lower env text <> "clear" /\ text <> "".

(** The states a session can be in: the one [__init__] leaves, and those
    that the methods and the loop make of a session state. *)
Inductive reachable (env : Env) : State -> Prop :=
| reach_init endpoint key model version w bot w' :
    init env endpoint key model version w = (Return bot, w') ->
    reachable env (mkState bot w')
| reach_moderate s text :
    reachable env s -> reachable env (snd (moderate_content env text s))
| reach_respond s u :
    reachable env s -> reachable env (snd (get_ai_response env u s))
| reach_save s u r :
    reachable env s -> reachable env (snd (save_conversation env u r s))
| reach_turn s typed :
    reachable env s -> reachable env (snd (turn env typed s))
| reach_run s reads :
    reachable env s -> reachable env (snd (run_chatbot env reads s)).

(** What holds of the session object all along. *)
Definition session_inv (b : Bot) : Prop :=
  system_prompt b = TRAVEL_PROMPT /\
  alternating (conversation_history b) = true.

(** The four variables that [main] reads. *)
Definition REQUIRED : list string :=
  ["OPENAI_API_ENDPOINT"; "OPENAI_API_KEY"; "OPENAI_API_VERSION";
   "OPENAI_DEPLOYED_MODEL"].

(** Startup has failed: no session object, and the two lines of the handler
    of [main] are all that was printed. *)
Definition startup_fatal (w : World) (r : Run) : Prop :=
  chatbot r = None /\ exists d, after r = report_failure d w.

(** C4 as the specification states it: a start with one of the four
    values missing is fatal. *)
Definition missing_value_is_fatal : Prop :=
  forall env getenv reads w,
    (exists name, In name REQUIRED /\ getenv name = None) ->
    startup_fatal w (main env getenv reads w).



(** Unfolds the combinators of [M] and the primitive effects. *)
Ltac unfold_m :=
  unfold try_except, bind, ret, raise, print, logger, item0,
    request_moderation, request_completion, now, extend_history,
    with_open_append, and_then, f_write in *.

(** A text made of white space only: characters of one, two or three
    bytes that [str.isspace] accepts, and nothing else. *)
Fixpoint blank (s : string) : bool :=
  match s with
  | EmptyString => true
  | String a t1 =>
      if space1 a then blank t1
      else
        match t1 with
        | EmptyString => false
        | String b t2 =>
            if space2 a b then blank t2
            else
              match t2 with
              | EmptyString => false
              | String c t3 => space3 a b c && blank t3
              end
        end
  end.

(** A machine on which the log file cannot be created. *)
Definition log_unwritable : Env :=
  mkEnv (AzureOpenAI Sample.env)
        (fun _ => Some (Exception "[Errno 13] Permission denied: 'chatbot.log'"))
        (moderations_create Sample.env) (chat_completions_create Sample.env)
        (now_isoformat Sample.env) (open_append Sample.env)
        (file_write Sample.env) (file_close Sample.env)
        (unicode_lower Sample.env).

(** A machine on which the client constructor is interrupted. *)
Definition client_interrupted : Env :=
  mkEnv (fun _ _ _ => Some KeyboardInterrupt)
        (FileHandler Sample.env)
        (moderations_create Sample.env) (chat_completions_create Sample.env)
        (now_isoformat Sample.env) (open_append Sample.env)
        (file_write Sample.env) (file_close Sample.env)
        (unicode_lower Sample.env).

(** A disk on which the writing is interrupted at the [User:] line. *)
Definition write_interrupted : Env :=
  Sample.with_write
    (fun _ _ text =>
       if prefix "User: " text then Some KeyboardInterrupt else None)
    Sample.env.

(** Twelve messages typed one after the other. *)
Definition long_talk : list (result string) :=
  repeat (Return "Hello") 12.

(** ** Facts about the list operations *)

Lemma last_n_length {A} (n : nat) (l : list A) :
  List.length (last_n n l) <= n.
Proof.
  unfold last_n. rewrite length_skipn. lia.
Qed.

Lemma last_n_length_min {A} (n : nat) (l : list A) :
  List.length (last_n n l) = Nat.min n (List.length l).
Proof.
  unfold last_n. rewrite length_skipn. lia.
Qed.

Lemma last_n_short {A} (n : nat) (l : list A) :
  List.length l <= n -> last_n n l = l.
Proof.
  intros H. unfold last_n.
  replace (List.length l - n) with 0 by lia. reflexivity.
Qed.

Lemma last_n_suffix {A} (n : nat) (l : list A) :
  exists older, l = older ++ last_n n l.
Proof.
  exists (firstn (List.length l - n) l). unfold last_n.
  symmetry. apply firstn_skipn.
Qed.

Lemma build_messages_shape (b : Bot) (u : string) :
  build_messages b u =
  mkMessage system (system_prompt b)
  :: last_n 20 (conversation_history b) ++ [mkMessage user u].
Proof. reflexivity. Qed.

Lemma build_messages_length (b : Bot) (u : string) :
  List.length (build_messages b u) <= 22.
Proof.
  rewrite build_messages_shape. cbn [List.length].
  rewrite length_app. cbn [List.length].
  pose proof (last_n_length 20 (conversation_history b)). lia.
Qed.

(** ** The shape of the history *)

Lemma alternating_app (h k : list Message) :
  alternating h = true -> alternating k = true -> alternating (h ++ k) = true.
Proof.
  revert k.
  (* induction two entries at a time *)
  assert (P : forall n h, List.length h <= n -> forall k,
             alternating h = true -> alternating k = true ->
             alternating (h ++ k) = true).
  { induction n as [|n IH]; intros h' Hn k Hh Hk.
    - destruct h'; [exact Hk | cbn in Hn; lia].
    - destruct h' as [|q [|a rest]]; [exact Hk | discriminate |].
      cbn [alternating app] in *.
      apply andb_true_iff in Hh as [Hqa Hrest].
      rewrite Hqa. cbn [andb].
      apply IH; [cbn in Hn; lia | exact Hrest | exact Hk]. }
  intros k. apply (P (List.length h)). lia.
Qed.

Lemma alternating_even (h : list Message) :
  alternating h = true -> Nat.even (List.length h) = true.
Proof.
  assert (P : forall n h, List.length h <= n ->
             alternating h = true -> Nat.even (List.length h) = true).
  { induction n as [|n IH]; intros h' Hn Hh.
    - destruct h'; [reflexivity | cbn in Hn; lia].
    - destruct h' as [|q [|a rest]]; [reflexivity | discriminate |].
      cbn [alternating] in Hh. apply andb_true_iff in Hh as [_ Hrest].
      cbn [List.length Nat.even]. apply IH; [cbn in Hn; lia | exact Hrest]. }
  apply (P (List.length h)). lia.
Qed.

Lemma alternating_exchange (h : list Message) (u : string) (r : Content) :
  alternating h = true ->
  alternating (h ++ [mkMessage user u; mkMessage assistant r]) = true.
Proof.
  intros H. apply alternating_app; [exact H | reflexivity].
Qed.

(** ** What each method does to the state *)

Section Effects.

Variable env : Env.

(** The four outcomes of [moderate_content]. *)
Lemma moderate_content_cases (text : string) (s : State) :
  let sent := with_world (put_call (ModerationsCreate text)) s in
  let failed d :=
    with_world
      (put_stdout "Content moderation unavailable, proceeding without filtering...")
      (with_world (put_log ERROR ("Content moderation failed: " ++ d)) sent) in
  moderate_content env text s =
  match moderations_create env s text with
  | Raise (Exception d) => (Return true, failed d)
  | Raise KeyboardInterrupt => (Raise KeyboardInterrupt, sent)
  | Return [] => (Return true, failed "list index out of range")
  | Return (results :: _) =>
      if flagged results then
        (Return false,
         with_world
           (put_log WARNING
              ("Content flagged for: " ++
               join ", " (map fst (filter (fun kv => snd kv) (categories results)))))
           sent)
      else (Return true, sent)
  end.
Proof.
  cbv zeta. unfold moderate_content. unfold_m.
  destruct (moderations_create env s text) as [[|m l]|[d|]]; cbn; try reflexivity.
  destruct (flagged m); reflexivity.
Qed.

Lemma moderate_content_self (text : string) (s : State) :
  self (snd (moderate_content env text s)) = self s.
Proof.
  rewrite moderate_content_cases. cbv zeta.
  destruct (moderations_create env s text) as [[|m l]|[d|]]; try reflexivity.
  destruct (flagged m); reflexivity.
Qed.

Lemma moderate_content_calls (text : string) (s : State) :
  calls (world (snd (moderate_content env text s))) =
  calls (world s) ++ [ModerationsCreate text].
Proof.
  rewrite moderate_content_cases. cbv zeta.
  destruct (moderations_create env s text) as [[|m l]|[d|]]; try reflexivity.
  destruct (flagged m); reflexivity.
Qed.

Lemma moderate_content_transcript (text : string) (s : State) :
  conversation_log (world (snd (moderate_content env text s))) =
  conversation_log (world s).
Proof.
  rewrite moderate_content_cases. cbv zeta.
  destruct (moderations_create env s text) as [[|m l]|[d|]]; try reflexivity.
  destruct (flagged m); reflexivity.
Qed.

(** The four outcomes of [get_ai_response]. *)
Lemma get_ai_response_cases (u : string) (s : State) :
  let request :=
    ChatCompletionsCreate (deployed_model (self s))
                          (build_messages (self s) u) SAMPLING in
  let sent := with_world (put_call request) s in
  let failed d :=
    (Return (Str ("Sorry, I encountered an error: " ++ d)),
     with_world (put_log ERROR ("Error getting AI response: " ++ d)) sent) in
  get_ai_response env u s =
  match chat_completions_create env s (deployed_model (self s))
                                (build_messages (self s) u) SAMPLING with
  | Raise (Exception d) => failed d
  | Raise KeyboardInterrupt => (Raise KeyboardInterrupt, sent)
  | Return [] => failed "list index out of range"
  | Return (reply :: _) => (Return reply, sent)
  end.
Proof.
  cbv zeta. unfold get_ai_response. unfold_m.
  destruct (chat_completions_create env s _ _ _) as [[|m l]|[d|]];
    reflexivity.
Qed.

Lemma get_ai_response_self (u : string) (s : State) :
  self (snd (get_ai_response env u s)) = self s.
Proof.
  rewrite get_ai_response_cases. cbv zeta.
  destruct (chat_completions_create env s _ _ _) as [[|m l]|[d|]];
    reflexivity.
Qed.

Lemma get_ai_response_calls (u : string) (s : State) :
  calls (world (snd (get_ai_response env u s))) =
  calls (world s) ++
  [ChatCompletionsCreate (deployed_model (self s))
                         (build_messages (self s) u) SAMPLING].
Proof.
  rewrite get_ai_response_cases. cbv zeta.
  destruct (chat_completions_create env s _ _ _) as [[|m l]|[d|]];
    reflexivity.
Qed.

Lemma get_ai_response_transcript (u : string) (s : State) :
  conversation_log (world (snd (get_ai_response env u s))) =
  conversation_log (world s).
Proof.
  rewrite get_ai_response_cases. cbv zeta.
  destruct (chat_completions_create env s _ _ _) as [[|m l]|[d|]];
    reflexivity.
Qed.

End Effects.

(** ** Facts about text *)

Lemma append_nil_r (s : string) : (s ++ "")%string = s.
Proof. induction s as [|c s IH]; cbn; [reflexivity | now rewrite IH]. Qed.

Lemma append_assoc (a b c : string) :
  ((a ++ b) ++ c)%string = (a ++ (b ++ c))%string.
Proof. induction a as [|x a IH]; cbn; [reflexivity | now rewrite IH]. Qed.

(** ** The transcript *)

Section Transcript.

Variable env : Env.

(** The [with] statement in one equation: when the file opens, the four
    writes fill the buffer up to the first one refused, and the closing
    sends the buffer, or the beginning of it, to the file. *)
Lemma append_block_unfold (ts u : string) (r : Content) (s : State) :
  append_block env ts u r s =
  match open_append env s with
  | Some e => (Raise e, s)
  | None =>
      let pending := buffered env s "" (lines ts u r) in
      match file_close env s pending with
      | None =>
          (match refused env s "" (lines ts u r) with
           | Some e => Raise e
           | None => Return tt
           end,
           with_world (put_text pending) s)
      | Some (e, reached) =>
          (Raise e, with_world (put_text (substring 0 reached pending)) s)
      end
  end.
Proof.
  unfold append_block, with_open_append, and_then, f_write, lines.
  destruct (open_append env s) as [e0|]; [reflexivity|].
  cbn [buffered refused].
  repeat match goal with
         | |- context [file_write env s ?p ?t] =>
             destruct (file_write env s p t) as [?|]
         end; reflexivity.
Qed.


(** The texts of a block that is written whole make up the block. *)
Lemma buffered_whole (ts u : string) (r : Content) (s : State) :
  refused env s "" (lines ts u r) = None ->
  buffered env s "" (lines ts u r) = block ts u r.
Proof.
  unfold lines, block.
  set (w1 := (nl ++ "[" ++ ts ++ "]" ++ nl)%string).
  set (w2 := ("User: " ++ u ++ nl)%string).
  set (w3 := ("Assistant: " ++ format r ++ nl)%string).
  set (w4 := (times "-" 50 ++ nl)%string).
  cbn [buffered refused].
  repeat match goal with
         | |- context [file_write env s ?p ?t] =>
             destruct (file_write env s p t) as [?|]
         end; try discriminate.
  intros _. change ("" ++ w1)%string with w1.
  rewrite !append_assoc. reflexivity.
Qed.

(** The [with] statement changes the transcript only, and only by adding
    to it: the block when nothing is raised. *)
Lemma append_block_effect (ts u : string) (r : Content) (s : State) :
  let out := append_block env ts u r s in
  self (snd out) = self s /\
  stdout (world (snd out)) = stdout (world s) /\
  logs (world (snd out)) = logs (world s) /\
  calls (world (snd out)) = calls (world s) /\
  exists added,
    conversation_log (world (snd out)) =
      (conversation_log (world s) ++ added)%string /\
    (fst out = Return tt -> added = block ts u r).
Proof.
  cbv zeta. rewrite append_block_unfold. cbv zeta.
  destruct (open_append env s) as [e0|].
  { cbn [fst snd]. repeat (split; [reflexivity|]).
    exists "". rewrite append_nil_r. split; [reflexivity | discriminate]. }
  destruct (file_close env s _) as [[e k]|];
    cbn [fst snd self world with_world put_text conversation_log stdout logs
         calls];
    repeat (split; [reflexivity|]); eexists; (split; [reflexivity|]).
  - discriminate.
  - pose proof (buffered_whole ts u r s) as Hw.
    destruct (refused env s "" (lines ts u r)); [discriminate|].
    intros _. now apply Hw.
Qed.

(** When the file cannot be opened nothing changes. *)
Lemma append_block_not_opened (ts u : string) (r : Content) (s : State)
      (e : exn) :
  open_append env s = Some e ->
  append_block env ts u r s = (Raise e, s).
Proof.
  intros H. unfold append_block, with_open_append. now rewrite H.
Qed.

(** [save_conversation] in one equation: the clock is read, the exchange
    joins the history, the block is written, and an [Exception] of the
    writing is logged. *)
Lemma save_conversation_unfold (u : string) (r : Content) (s : State) :
  save_conversation env u r s =
  let extended :=
    with_self (fun b => set_history (conversation_history b ++ exchange u r) b) s in
  match append_block env (now_isoformat env s) u r extended with
  | (Raise (Exception d), s') =>
      (Return tt,
       with_world
         (put_log ERROR ("Error saving conversation to text file: " ++ d)) s')
  | out => out
  end.
Proof. reflexivity. Qed.

Lemma save_conversation_self (u : string) (r : Content) (s : State) :
  self (snd (save_conversation env u r s)) =
  set_history (conversation_history (self s) ++ exchange u r) (self s).
Proof.
  rewrite save_conversation_unfold. cbv zeta.
  match goal with
  | |- context [append_block env ?ts u r ?s1] =>
      destruct (append_block_effect ts u r s1) as (Hself & _);
      destruct (append_block env ts u r s1) as [[[]|[d|]] s2]
  end; cbn in *; exact Hself.
Qed.

Lemma save_conversation_calls (u : string) (r : Content) (s : State) :
  calls (world (snd (save_conversation env u r s))) = calls (world s).
Proof.
  rewrite save_conversation_unfold. cbv zeta.
  match goal with
  | |- context [append_block env ?ts u r ?s1] =>
      destruct (append_block_effect ts u r s1) as (_ & _ & _ & Hcalls & _);
      destruct (append_block env ts u r s1) as [[[]|[d|]] s2]
  end; cbn in *; exact Hcalls.
Qed.

End Transcript.

(** ** One turn of the loop *)

Section Loop.

Variable env : Env.

Lemma turn_body_exit (raw : string) (s : State) :
  lower env (strip raw) = "exit" ->
  turn_body env (Return raw) s =
  (Return Break,
   with_world (put_stdout (nl ++ "Thanks for chatting! Have a great trip!"))
              (prompted s)).
Proof.
  intros H. unfold turn_body, input. unfold_m. cbn [fst snd].
  rewrite H. reflexivity.
Qed.

Lemma turn_body_clear (raw : string) (s : State) :
  lower env (strip raw) = "clear" ->
  turn_body env (Return raw) s =
  (Return Continue,
   with_world (put_stdout "Conversation history cleared!")
              (with_self (set_history []) (prompted s))).
Proof.
  intros H. unfold turn_body, input. unfold_m. cbn [fst snd].
  rewrite H. reflexivity.
Qed.

Lemma turn_body_empty (raw : string) (s : State) :
  strip raw = "" ->
  turn_body env (Return raw) s =
  (Return Continue,
   with_world (put_stdout "Please enter a message!") (prompted s)).
Proof.
  intros H. unfold turn_body, input. unfold_m. cbn [fst snd].
  rewrite H. reflexivity.
Qed.

Lemma turn_body_message (raw : string) (s : State) :
  is_message env (strip raw) ->
  turn_body env (Return raw) s =
  match moderate_content env (strip raw) (prompted s) with
  | (Return false, s1) =>
      (Return Continue,
       with_world
         (put_stdout
            "Sorry, your message contains inappropriate content. Please try again.")
         s1)
  | (Return true, s1) =>
      match get_ai_response env (strip raw)
              (with_world (put_stdout (nl ++ "Thinking...")) s1) with
      | (Return ai_response, s2) =>
          match save_conversation env (strip raw) ai_response
                  (with_world
                     (put_stdout (nl ++ "Assistant: " ++ format ai_response)) s2)
          with
          | (Return _, s3) => (Return Continue, s3)
          | (Raise e, s3) => (Raise e, s3)
          end
      | (Raise e, s2) => (Raise e, s2)
      end
  | (Raise e, s1) => (Raise e, s1)
  end.
Proof.
  intros (Hexit & Hclear & Hempty).
  apply String.eqb_neq in Hexit, Hclear, Hempty.
  unfold turn_body, input. unfold bind at 1. cbn [fst snd].
  rewrite Hexit, Hclear, Hempty.
  unfold bind at 1. fold (prompted s).
  destruct (moderate_content env (strip raw) (prompted s)) as [[[|]|e] s1];
    [|reflexivity|reflexivity].
  cbn [negb]. unfold bind at 1. unfold print at 1.
  unfold bind at 1.
  destruct (get_ai_response env (strip raw) _) as [[ai|e] s2]; [|reflexivity].
  unfold bind at 1. unfold print at 1. unfold bind at 1.
  destruct (save_conversation env (strip raw) ai _) as [[[]|e] s3]; reflexivity.
Qed.

Lemma turn_body_unread (e : exn) (s : State) :
  turn_body env (Raise e) s = (Raise e, prompted s).
Proof. reflexivity. Qed.

(** The two handlers of the loop leave the session and the transcript
    alone and send nothing. *)
Lemma turn_handlers (typed : result string) (s : State) :
  let body := snd (turn_body env typed s) in
  let out := snd (turn env typed s) in
  self out = self body /\
  calls (world out) = calls (world body) /\
  conversation_log (world out) = conversation_log (world body).
Proof.
  cbv zeta. unfold turn.
  destruct (turn_body env typed s) as [[c|[d|]] s']; repeat split.
Qed.

(** The loop is never left by an exception. *)
Lemma turn_returns (typed : result string) (s : State) :
  exists c, fst (turn env typed s) = Return c.
Proof.
  unfold turn.
  destruct (turn_body env typed s) as [[c|[d|]] s']; eexists; reflexivity.
Qed.

(** What a turn can do to the session object. *)
Lemma turn_self (typed : result string) (s : State) :
  let b := self (snd (turn env typed s)) in
  b = self s \/
  b = set_history [] (self s) \/
  exists u r,
    b = set_history (conversation_history (self s) ++ exchange u r) (self s).
Proof.
  cbv zeta. destruct (turn_handlers typed s) as (-> & _ & _).
  destruct typed as [raw|e]; [|left; reflexivity].
  destruct (String.eqb_spec (lower env (strip raw)) "exit") as [Hx|Hx];
    [rewrite (turn_body_exit _ _ Hx); left; reflexivity|].
  destruct (String.eqb_spec (lower env (strip raw)) "clear") as [Hc|Hc];
    [rewrite (turn_body_clear _ _ Hc); right; left; reflexivity|].
  destruct (String.eqb_spec (strip raw) "") as [He|He];
    [rewrite (turn_body_empty _ _ He); left; reflexivity|].
  rewrite (turn_body_message raw s (conj Hx (conj Hc He))).
  pose proof (moderate_content_self env (strip raw) (prompted s)) as Hm.
  destruct (moderate_content env (strip raw) (prompted s)) as [[[|]|e] s1];
    cbn [snd] in Hm; [|left; exact Hm|left; exact Hm].
  match goal with
  | |- context [get_ai_response env ?u ?s2] =>
      pose proof (get_ai_response_self env u s2) as Hg;
      destruct (get_ai_response env u s2) as [[ai|e] s3]
  end; cbn [snd] in Hg; [|left; cbn [snd]; rewrite Hg; exact Hm].
  match goal with
  | |- context [save_conversation env ?u ?r ?s4] =>
      pose proof (save_conversation_self env u r s4) as Hs;
      destruct (save_conversation env u r s4) as [[[]|e] s5]
  end; cbn [snd] in Hs |- *; right; right; exists (strip raw), ai;
    rewrite Hs; cbn [with_world self]; rewrite Hg; cbn [with_world self];
    rewrite Hm; reflexivity.
Qed.

End Loop.

(** ** The invariant of the session *)

Section Invariant.

Variable env : Env.

Lemma init_inv endpoint key model version w bot w' :
  init env endpoint key model version w = (Return bot, w') ->
  session_inv bot.
Proof.
  unfold init, setup_logging.
  destruct (AzureOpenAI env endpoint key version); [discriminate|].
  destruct (FileHandler env w); [discriminate|].
  intros H. injection H as <- _. split; reflexivity.
Qed.

Lemma inv_exchange (b : Bot) (u : string) (r : Content) :
  session_inv b ->
  session_inv (set_history (conversation_history b ++ exchange u r) b).
Proof.
  intros [Hp Ha]. split; [exact Hp|].
  cbn [set_history conversation_history]. now apply alternating_exchange.
Qed.

Lemma inv_turn (typed : result string) (s : State) :
  session_inv (self s) -> session_inv (self (snd (turn env typed s))).
Proof.
  intros H. destruct (turn_self env typed s) as [-> | [-> | (u & r & ->)]].
  - exact H.
  - destruct H as [Hp _]. split; [exact Hp | reflexivity].
  - now apply inv_exchange.
Qed.

Lemma inv_loop (reads : list (result string)) :
  forall s, session_inv (self s) ->
            session_inv (self (snd (loop env reads s))).
Proof.
  induction reads as [|typed rest IH]; intros s H; [exact H|].
  cbn [loop]. unfold bind.
  pose proof (inv_turn typed s H) as Ht.
  destruct (turn env typed s) as [[[|]|e] s']; cbn [snd] in Ht |- *.
  - now apply IH.
  - exact Ht.
  - exact Ht.
Qed.

Lemma inv_run (reads : list (result string)) (s : State) :
  session_inv (self s) ->
  session_inv (self (snd (run_chatbot env reads s))).
Proof.
  intros H. unfold run_chatbot. unfold bind, print. now apply inv_loop.
Qed.

Lemma reachable_inv (s : State) : reachable env s -> session_inv (self s).
Proof.
  induction 1 as [? ? ? ? ? ? ? Hi | s t _ IH | s u _ IH | s u r _ IH
                 | s typed _ IH | s reads _ IH].
  - exact (init_inv _ _ _ _ _ _ _ Hi).
  - now rewrite moderate_content_self.
  - now rewrite get_ai_response_self.
  - rewrite save_conversation_self. now apply inv_exchange.
  - now apply inv_turn.
  - now apply inv_run.
Qed.

End Invariant.

Section Requests.

Variable env : Env.

(** The requests of one turn: none, the moderation request alone, or the
    moderation request and then the completion request, which is built from
    the session as the turn found it. *)
Lemma turn_requests (raw : string) (s : State) :
  exists new,
    calls (world (snd (turn env (Return raw) s))) = calls (world s) ++ new /\
    (new = [] \/
     new = [ModerationsCreate (strip raw)] \/
     new = [ModerationsCreate (strip raw);
            ChatCompletionsCreate (deployed_model (self s))
              (build_messages (self s) (strip raw)) SAMPLING]).
Proof.
  destruct (turn_handlers env (Return raw) s) as (_ & -> & _).
  destruct (String.eqb_spec (lower env (strip raw)) "exit") as [Hx|Hx];
    [rewrite (turn_body_exit _ _ _ Hx); exists []; cbn; rewrite app_nil_r; auto|].
  destruct (String.eqb_spec (lower env (strip raw)) "clear") as [Hc|Hc];
    [rewrite (turn_body_clear _ _ _ Hc); exists []; cbn; rewrite app_nil_r; auto|].
  destruct (String.eqb_spec (strip raw) "") as [He|He];
    [rewrite (turn_body_empty _ _ _ He); exists []; cbn; rewrite app_nil_r; auto|].
  rewrite (turn_body_message env raw s (conj Hx (conj Hc He))).
  pose proof (moderate_content_self env (strip raw) (prompted s)) as Hm.
  pose proof (moderate_content_calls env (strip raw) (prompted s)) as Hmc.
  destruct (moderate_content env (strip raw) (prompted s)) as [[[|]|e] s1];
    cbn [snd] in Hm, Hmc;
    try (exists [ModerationsCreate (strip raw)];
         cbn [snd with_world world calls put_stdout]; rewrite Hmc;
         split; [reflexivity | auto]).
  match goal with
  | |- context [get_ai_response env ?u ?s2] =>
      pose proof (get_ai_response_calls env u s2) as Hgc;
      pose proof (get_ai_response_self env u s2) as Hg;
      destruct (get_ai_response env u s2) as [[ai|e] s3]
  end; cbn [snd with_world world self calls put_stdout] in Hgc, Hg;
    rewrite Hm, Hmc in Hgc; cbn [prompted with_world world self calls put_stdout] in Hgc;
    rewrite <- app_assoc in Hgc; cbn [app] in Hgc.
  - match goal with
    | |- context [save_conversation env ?u ?r ?s4] =>
        pose proof (save_conversation_calls env u r s4) as Hsc;
        destruct (save_conversation env u r s4) as [[[]|e] s5]
    end; cbn [snd with_world world calls put_stdout] in *.
    all: rewrite Hsc, Hgc; eexists; split; [reflexivity | auto].
  - cbn [snd]. rewrite Hgc. eexists; split; [reflexivity | auto].
Qed.

End Requests.

(** * The claims *)

(** C1.  In every session state, for every user message, the completion
    request made by [get_ai_response] carries the fixed system prompt, then
    the last 20 entries of the history (all of it when it has fewer), then
    the current user message: at most 22 entries, the first one the system
    prompt.  The request does not add the message to the history, and in a
    turn of the loop the request is built from the history as it stood when
    the line was read. *)
Theorem completion_request_messages (env : Env) (s : State) (u : string) :
  reachable env s ->
  let messages :=
    mkMessage system TRAVEL_PROMPT
    :: last_n 20 (conversation_history (self s)) ++ [mkMessage user u] in
  calls (world (snd (get_ai_response env u s))) =
    calls (world s) ++
    [ChatCompletionsCreate (deployed_model (self s)) messages SAMPLING] /\
  List.length messages <= 22 /\
  hd_error messages = Some (mkMessage system TRAVEL_PROMPT) /\
  (exists older,
      conversation_history (self s) =
        older ++ last_n 20 (conversation_history (self s)) /\
      List.length (last_n 20 (conversation_history (self s))) =
        Nat.min 20 (List.length (conversation_history (self s)))) /\
  conversation_history (self (snd (get_ai_response env u s))) =
    conversation_history (self s) /\
  (forall raw, exists new,
      calls (world (snd (turn env (Return raw) s))) = calls (world s) ++ new /\
      forall model sent sampling,
        In (ChatCompletionsCreate model sent sampling) new ->
        sent =
        mkMessage system TRAVEL_PROMPT
        :: last_n 20 (conversation_history (self s))
           ++ [mkMessage user (strip raw)]).
Proof.
  intros Hr messages.
  destruct (reachable_inv env s Hr) as [Hprompt _].
  assert (Hb : forall v, build_messages (self s) v =
                         mkMessage system TRAVEL_PROMPT
                         :: last_n 20 (conversation_history (self s))
                            ++ [mkMessage user v]).
  { intros v. rewrite build_messages_shape, Hprompt. reflexivity. }
  split; [|split; [|split; [|split; [|split]]]].
  - rewrite get_ai_response_calls, Hb. reflexivity.
  - subst messages. rewrite <- Hb. apply build_messages_length.
  - reflexivity.
  - destruct (last_n_suffix 20 (conversation_history (self s))) as [older Ho].
    exists older. split; [exact Ho | apply last_n_length_min].
  - now rewrite get_ai_response_self.
  - intros raw. destruct (turn_requests env raw s) as (new & Hc & Hn).
    exists new. split; [exact Hc|].
    intros model sent sampling Hin.
    destruct Hn as [-> | [-> | ->]].
    + destruct Hin.
    + destruct Hin as [Hin|[]]. discriminate Hin.
    + destruct Hin as [Hin|[Hin|[]]]; [discriminate Hin|].
      injection Hin as _ <- _. apply Hb.
Qed.

Lemma fresh_reachable : reachable Sample.env Sample.fresh.
Proof.
  apply (reach_init Sample.env (Some "https://travel.example.net/")
           (Some "k-123") (Some "gpt-4o") (Some "2024-02-01")
           Sample.empty_world).
  reflexivity.
Defined.

Lemma completion_request_messages_witness :
  reachable Sample.env (snd (turn Sample.env (Return "Hello") Sample.fresh)) /\
  calls (world (snd (get_ai_response Sample.env "And Rome?"
                       (snd (turn Sample.env (Return "Hello") Sample.fresh))))) =
  [ModerationsCreate "Hello";
   ChatCompletionsCreate (Some "gpt-4o")
     [mkMessage system TRAVEL_PROMPT; mkMessage user "Hello"] SAMPLING;
   ChatCompletionsCreate (Some "gpt-4o")
     [mkMessage system TRAVEL_PROMPT; mkMessage user "Hello";
      mkMessage assistant "Hi there!"; mkMessage user "And Rome?"] SAMPLING].
Proof.
  split.
  - apply reach_turn. exact fresh_reachable.
  - exact (proj1 (completion_request_messages Sample.env _ "And Rome?"
                    (reach_turn _ _ _ fresh_reachable))).
Defined.

(** C2.  When the completion request raises an error, [get_ai_response]
    does not raise: it returns the text [Sorry, I encountered an error: ]
    followed by the detail of the error, and logs the error.  The request
    has been sent, and nothing else has changed. *)
Theorem completion_error_reply (env : Env) (u : string) (s : State) (d : string) :
  chat_completions_create env s (deployed_model (self s))
    (build_messages (self s) u) SAMPLING = Raise (Exception d) ->
  let out := get_ai_response env u s in
  fst out = Return ("Sorry, I encountered an error: " ++ d)%string /\
  logs (world (snd out)) =
    logs (world s) ++ [(ERROR, ("Error getting AI response: " ++ d)%string)] /\
  self (snd out) = self s /\
  stdout (world (snd out)) = stdout (world s) /\
  conversation_log (world (snd out)) = conversation_log (world s).
Proof.
  intros H out. subst out.
  rewrite get_ai_response_cases. cbv zeta. rewrite H.
  cbn [fst snd with_world world logs put_log put_call self stdout
       conversation_log].
  repeat split.
Qed.

Lemma completion_error_reply_witness :
  fst (get_ai_response
         (Sample.with_completion
            (fun _ _ _ _ => Raise (Exception "Connection error.")) Sample.env)
         "Hello" Sample.fresh)
  = Return "Sorry, I encountered an error: Connection error.".
Proof.
  apply (completion_error_reply
           (Sample.with_completion
              (fun _ _ _ _ => Raise (Exception "Connection error.")) Sample.env)
           "Hello" Sample.fresh "Connection error.").
  reflexivity.
Defined.

(** C3.  When the moderation request raises an error, [moderate_content]
    does not raise: the error is logged, the notice that moderation is
    unavailable is printed and the answer is [True].  In a turn of the loop
    the completion request is then sent. *)
Theorem moderation_fails_open (env : Env) (text : string) (s : State) (d : string) :
  moderations_create env s text = Raise (Exception d) ->
  moderate_content env text s =
    (Return true,
     with_world
       (put_stdout "Content moderation unavailable, proceeding without filtering...")
       (with_world (put_log ERROR ("Content moderation failed: " ++ d))
          (with_world (put_call (ModerationsCreate text)) s))) /\
  (forall raw s0,
      strip raw = text -> is_message env text -> prompted s0 = s ->
      calls (world (snd (turn env (Return raw) s0))) =
      calls (world s0) ++
      [ModerationsCreate text;
       ChatCompletionsCreate (deployed_model (self s0))
         (build_messages (self s0) text) SAMPLING]).
Proof.
  intros H.
  assert (Hm : moderate_content env text s =
    (Return true,
     with_world
       (put_stdout "Content moderation unavailable, proceeding without filtering...")
       (with_world (put_log ERROR ("Content moderation failed: " ++ d))
          (with_world (put_call (ModerationsCreate text)) s)))).
  { rewrite moderate_content_cases. cbv zeta. now rewrite H. }
  split; [exact Hm|].
  intros raw s0 <- Hmsg <-.
  destruct (turn_handlers env (Return raw) s0) as (_ & -> & _).
  rewrite (turn_body_message env raw s0 Hmsg), Hm.
  match goal with
  | |- context [get_ai_response env ?v ?s2] =>
      pose proof (get_ai_response_calls env v s2) as Hgc;
      destruct (get_ai_response env v s2) as [[ai|e] s3]
  end; cbn [snd with_world world self calls put_stdout put_log put_call prompted] in Hgc.
  - match goal with
    | |- context [save_conversation env ?v ?r ?s4] =>
        pose proof (save_conversation_calls env v r s4) as Hsc;
        destruct (save_conversation env v r s4) as [[[]|e] s5]
    end; cbn [snd with_world world calls put_stdout] in *.
    all: rewrite Hsc, Hgc, <- app_assoc; reflexivity.
  - cbn [snd]. rewrite Hgc, <- app_assoc. reflexivity.
Qed.

Lemma moderation_fails_open_witness :
  fst (moderate_content
         (Sample.with_moderation
            (fun _ _ => Raise (Exception "Request timed out.")) Sample.env)
         "Hello" (prompted Sample.fresh))
  = Return true /\
  calls (world (snd (turn
         (Sample.with_moderation
            (fun _ _ => Raise (Exception "Request timed out.")) Sample.env)
         (Return "Hello") Sample.fresh)))
  = [ModerationsCreate "Hello";
     ChatCompletionsCreate (Some "gpt-4o")
       [mkMessage system TRAVEL_PROMPT; mkMessage user "Hello"] SAMPLING].
Proof.
  pose proof (moderation_fails_open
                (Sample.with_moderation
                   (fun _ _ => Raise (Exception "Request timed out.")) Sample.env)
                "Hello" (prompted Sample.fresh) "Request timed out."
                eq_refl) as [Hm Ht].
  split.
  - rewrite Hm. reflexivity.
  - apply (Ht "Hello" Sample.fresh); [reflexivity | | reflexivity].
    repeat split; discriminate.
Defined.

(** C10.  [get_ai_response] leaves the session object as it found it,
    whether the request succeeds or fails; so does [moderate_content];
    [save_conversation] appends one exchange to the history, and a turn of
    the loop leaves the session alone, empties the history or appends one
    exchange to it. *)
Theorem get_ai_response_frame (env : Env) (u : string) (s : State) :
  self (snd (get_ai_response env u s)) = self s /\
  (forall text, self (snd (moderate_content env text s)) = self s) /\
  (forall r,
      self (snd (save_conversation env u r s)) =
      set_history (conversation_history (self s) ++ exchange u r) (self s)) /\
  (forall typed,
      let b := self (snd (turn env typed s)) in
      b = self s \/
      b = set_history [] (self s) \/
      exists v r,
        b = set_history (conversation_history (self s) ++ exchange v r) (self s)).
Proof.
  split; [apply get_ai_response_self|].
  split; [intros text; apply moderate_content_self|].
  split; [intros r; apply save_conversation_self|].
  intros typed. apply turn_self.
Qed.

(** C5.  When nothing fails while the block is written,
    [save_conversation] leaves the history with the two entries of the
    exchange appended, the user entry first, and the transcript with one
    block appended: a line feed, the timestamp between brackets, the [User:]
    line, the [Assistant:] line and a line of 50 dashes.  Nothing is printed,
    logged or sent. *)
Theorem save_conversation_success (env : Env) (u r : string) (s : State) :
  written env u r s = Return tt ->
  let out := save_conversation env u r s in
  fst out = Return tt /\
  conversation_history (self (snd out)) =
    conversation_history (self s)
    ++ [mkMessage user u; mkMessage assistant r] /\
  conversation_log (world (snd out)) =
    (conversation_log (world s) ++
     nl ++ "[" ++ now_isoformat env s ++ "]" ++ nl ++
     "User: " ++ u ++ nl ++
     "Assistant: " ++ r ++ nl ++
     "--------------------------------------------------" ++ nl)%string /\
  stdout (world (snd out)) = stdout (world s) /\
  logs (world (snd out)) = logs (world s) /\
  calls (world (snd out)) = calls (world s).
Proof.
  intros H. cbv zeta. unfold written in H.
  rewrite save_conversation_unfold. cbv zeta. fold (extended u r s).
  destruct (append_block_effect env (now_isoformat env s) u r (extended u r s))
    as (Hself & Hout & Hlogs & Hcalls & added & Hlog & Hall).
  destruct (append_block env (now_isoformat env s) u r (extended u r s))
    as [[[]|e] s']; cbn [fst snd] in *; [|discriminate H].
  specialize (Hall eq_refl). subst added.
  split; [reflexivity|]. split; [now rewrite Hself|].
  split; [|auto].
  rewrite Hlog. unfold block. cbn [extended with_self world format].
  rewrite !append_assoc. reflexivity.
Qed.

Lemma save_conversation_success_witness :
  conversation_log
    (world (snd (save_conversation Sample.env "Hello" "Hi there!" Sample.fresh)))
  = (nl ++ "[2024-05-01T10:30:00.000000]" ++ nl ++
     "User: Hello" ++ nl ++
     "Assistant: Hi there!" ++ nl ++
     "--------------------------------------------------" ++ nl)%string.
Proof.
  apply (save_conversation_success Sample.env "Hello" "Hi there!" Sample.fresh).
  reflexivity.
Defined.




(** C7.  A turn whose input, trimmed and in lower case, is [clear] leaves
    the history empty, sends no request and leaves the transcript as it
    was; it prints the confirmation and the loop goes on. *)
Theorem clear_turn (env : Env) (raw : string) (s : State) :
  lower env (strip raw) = "clear" ->
  let out := turn env (Return raw) s in
  fst out = Return Continue /\
  List.length (conversation_history (self (snd out))) = 0 /\
  calls (world (snd out)) = calls (world s) /\
  conversation_log (world (snd out)) = conversation_log (world s) /\
  stdout (world (snd out)) =
    stdout (world s) ++ [PROMPT; "Conversation history cleared!"] /\
  logs (world (snd out)) = logs (world s).
Proof.
  intros H. cbv zeta. unfold turn. rewrite (turn_body_clear env raw s H).
  cbn [fst snd with_world with_self prompted self world set_history
       conversation_history calls conversation_log stdout logs put_stdout
       List.length].
  rewrite <- app_assoc. repeat split.
Qed.

Lemma clear_turn_witness :
  List.length
    (conversation_history
       (self (snd (turn Sample.env
                     (Return (Sample.nbsp ++ " CLEAR " ++ Sample.wide_space)%string)
                     Sample.chatted)))) = 0.
Proof.
  apply (clear_turn Sample.env
           (Sample.nbsp ++ " CLEAR " ++ Sample.wide_space)%string
           Sample.chatted).
  reflexivity.
Defined.

(** C8.  In a turn whose input is a message that [moderate_content]
    refuses, the refusal is printed and the loop goes on: the moderation
    request is the only request sent, so no completion is asked for, and the
    session and the transcript are as they were. *)
Theorem refused_turn (env : Env) (raw : string) (s s1 : State) :
  is_message env (strip raw) ->
  moderate_content env (strip raw) (prompted s) = (Return false, s1) ->
  turn env (Return raw) s =
    (Return Continue,
     with_world
       (put_stdout
          "Sorry, your message contains inappropriate content. Please try again.")
       s1) /\
  calls (world (snd (turn env (Return raw) s))) =
    calls (world s) ++ [ModerationsCreate (strip raw)] /\
  self (snd (turn env (Return raw) s)) = self s /\
  conversation_log (world (snd (turn env (Return raw) s))) =
    conversation_log (world s).
Proof.
  intros Hmsg Hm.
  assert (Ht : turn env (Return raw) s =
    (Return Continue,
     with_world
       (put_stdout
          "Sorry, your message contains inappropriate content. Please try again.")
       s1)).
  { unfold turn. rewrite (turn_body_message env raw s Hmsg), Hm. reflexivity. }
  pose proof (moderate_content_calls env (strip raw) (prompted s)) as Hc.
  pose proof (moderate_content_self env (strip raw) (prompted s)) as Hs.
  pose proof (moderate_content_transcript env (strip raw) (prompted s)) as Hl.
  rewrite Hm in Hc, Hs, Hl. cbn [snd] in Hc, Hs, Hl.
  rewrite Ht. cbn [snd with_world world self calls conversation_log put_stdout].
  repeat split; assumption.
Qed.

Lemma refused_turn_witness :
  calls (world (snd (turn
     (Sample.with_moderation (fun _ _ => Return Sample.rude) Sample.env)
     (Return (Sample.nbsp ++ "Hello")%string) Sample.chatted)))
  = [ModerationsCreate "Hello"].
Proof.
  eapply (refused_turn
            (Sample.with_moderation (fun _ _ => Return Sample.rude) Sample.env)
            (Sample.nbsp ++ "Hello")%string Sample.chatted).
  - repeat split; discriminate.
  - reflexivity.
Defined.

(** C9.  In every session state the history is made of exchanges, a user
    entry followed by an assistant entry, from the first entry on; so its
    length is even. *)
Theorem history_alternates (env : Env) (s : State) :
  reachable env s ->
  alternating (conversation_history (self s)) = true /\
  Nat.even (List.length (conversation_history (self s))) = true.
Proof.
  intros Hr. destruct (reachable_inv env s Hr) as [_ Ha].
  split; [exact Ha | now apply alternating_even].
Qed.

Lemma history_alternates_witness :
  alternating
    (conversation_history
       (self (snd (run_chatbot Sample.env
                     [Return "Hello"; Return "clear"; Return "And Rome?"]
                     Sample.fresh)))) = true.
Proof.
  apply (history_alternates Sample.env).
  apply reach_run. exact fresh_reachable.
Defined.

(** A start with the model identifier missing and the rest in place: the
    session is constructed with no model, the banner is printed, and the
    completion request of the first message names no model. *)
Lemma start_without_model :
  let getenv := Sample.unset "OPENAI_DEPLOYED_MODEL" Sample.getenv in
  let run := main Sample.env getenv [Return "Hello"] Sample.empty_world in
  In "OPENAI_DEPLOYED_MODEL" REQUIRED /\
  getenv "OPENAI_DEPLOYED_MODEL" = None /\
  chatbot run =
    Some (mkBot (mkClient (Some "https://travel.example.net/") (Some "k-123")
                          (Some "2024-02-01"))
                None (exchange "Hello" "Hi there!") TRAVEL_PROMPT) /\
  ending run = Returned (Some Reading) /\
  In "Azure OpenAI Travel Assistant" (stdout (after run)) /\
  In (ChatCompletionsCreate None
        [mkMessage system TRAVEL_PROMPT; mkMessage user "Hello"] SAMPLING)
     (calls (after run)).
Proof.
  cbv zeta. split; [right; right; right; left; reflexivity|].
  split; [reflexivity|]. split; [reflexivity|]. split; [reflexivity|].
  split; [right; right; left; reflexivity | right; left; reflexivity].
Qed.

(** C4, counterexample.  The model identifier is missing and startup is not
    fatal. *)
Lemma missing_model_is_not_fatal : ~ missing_value_is_fatal.
Proof.
  intros claim.
  destruct start_without_model as (Hreq & Hnone & Hbot & _).
  destruct (claim Sample.env
              (Sample.unset "OPENAI_DEPLOYED_MODEL" Sample.getenv)
              [Return "Hello"] Sample.empty_world)
    as [Hfatal _].
  - exists "OPENAI_DEPLOYED_MODEL". split; [exact Hreq | exact Hnone].
  - rewrite Hbot in Hfatal. discriminate Hfatal.
Qed.

(** C4, as the code has it.  When the client constructor raises an error
    for the endpoint, the credential and the version it is given, startup is
    fatal: no session object is constructed, the loop is not entered, and
    [main] prints the failure and the remediation message and returns.  The
    model identifier plays no part in it. *)
Theorem client_refusal_is_fatal
        (env : Env) (getenv : string -> option string)
        (reads : list (result string)) (w : World) (d : string) :
  AzureOpenAI env (getenv "OPENAI_API_ENDPOINT") (getenv "OPENAI_API_KEY")
              (getenv "OPENAI_API_VERSION") = Some (Exception d) ->
  let run := main env getenv reads w in
  chatbot run = None /\
  ending run = Returned None /\
  stdout (after run) =
    stdout w ++
    [("Failed to initialize chatbot: " ++ d)%string;
     "Please check your Azure OpenAI credentials and try again."] /\
  logs (after run) = logs w /\
  conversation_log (after run) = conversation_log w /\
  calls (after run) = calls w.
Proof.
  intros H. cbv zeta. unfold main, init. rewrite H.
  cbn [chatbot ending after report_failure put_stdout stdout logs
       conversation_log calls].
  rewrite <- app_assoc. repeat split.
Qed.

Lemma client_refusal_is_fatal_witness :
  let run := main Sample.env (Sample.unset "OPENAI_API_KEY" Sample.getenv)
                  [Return "Hello"] Sample.empty_world in
  chatbot run = None /\
  stdout (after run) =
    ["Failed to initialize chatbot: Missing credentials.";
     "Please check your Azure OpenAI credentials and try again."].
Proof.
  destruct (client_refusal_is_fatal Sample.env
              (Sample.unset "OPENAI_API_KEY" Sample.getenv)
              [Return "Hello"] Sample.empty_world "Missing credentials."
              eq_refl)
    as (Hbot & _ & Hout & _).
  split; [exact Hbot | exact Hout].
Defined.

(** * Further properties of the code *)

(** ** More facts used below *)

Lemma lstrip_blank (s : string) : blank s = true -> lstrip s = "".
Proof.
  assert (P : forall n s, String.length s <= n ->
                          blank s = true -> lstrip s = "").
  { induction n as [|n IH]; intros t Hn H.
    - destruct t; [reflexivity | cbn in Hn; lia].
    - destruct t as [|a t1]; [reflexivity|].
      cbn [blank lstrip] in *. cbn [String.length] in Hn.
      destruct (space1 a); [apply IH; [lia | exact H]|].
      destruct t1 as [|b t2]; [discriminate H|].
      cbn [String.length] in Hn.
      destruct (space2 a b); [apply IH; [lia | exact H]|].
      destruct t2 as [|c t3]; [discriminate H|].
      cbn [String.length] in Hn.
      apply andb_true_iff in H as [Hc Ht]. rewrite Hc.
      apply IH; [lia | exact Ht]. }
  apply (P (String.length s)). lia.
Qed.

Lemma strip_blank (s : string) : blank s = true -> strip s = "".
Proof.
  intros H. unfold strip. rewrite (lstrip_blank s H). reflexivity.
Qed.

Lemma alternating_skipn_even (k : nat) :
  forall h, alternating h = true -> alternating (skipn (2 * k) h) = true.
Proof.
  induction k as [|k IH]; intros h H; [exact H|].
  replace (2 * S k) with (S (S (2 * k))) by lia.
  destruct h as [|q [|a rest]]; [reflexivity | discriminate H |].
  cbn [skipn]. apply IH.
  cbn [alternating] in H. apply andb_true_iff in H as [_ H]. exact H.
Qed.

Section LoopFacts.
Variable env : Env.

Lemma loop_returns (reads : list (result string)) :
  forall s, exists st, fst (loop env reads s) = Return st.
Proof.
  induction reads as [|typed rest IH]; intros s; [now exists Reading|].
  cbn [loop]. unfold bind.
  destruct (turn_returns env typed s) as [c Hc].
  destruct (turn env typed s) as [[[|]|e] s']; cbn [fst] in Hc.
  - apply IH.
  - now exists Exited.
  - discriminate Hc.
Qed.

Lemma loop_continues (typed : result string) (rest : list (result string))
      (s s' : State) :
  turn env typed s = (Return Continue, s') ->
  loop env (typed :: rest) s = loop env rest s'.
Proof.
  intros H. cbn [loop]. unfold bind. now rewrite H.
Qed.

Lemma get_ai_response_stdout (u : string) (s : State) :
  stdout (world (snd (get_ai_response env u s))) = stdout (world s).
Proof.
  rewrite get_ai_response_cases. cbv zeta.
  destruct (chat_completions_create env s _ _ _) as [[|m l]|[d|]];
    reflexivity.
Qed.

(** What [save_conversation] does to the console, the log and the
    transcript: nothing is printed, the log only grows, and the transcript
    only grows, by the block when the writing raises nothing. *)
Lemma save_conversation_files (u : string) (r : Content) (s : State) :
  let out := save_conversation env u r s in
  stdout (world (snd out)) = stdout (world s) /\
  (exists more, logs (world (snd out)) = logs (world s) ++ more) /\
  exists added,
    conversation_log (world (snd out)) =
      (conversation_log (world s) ++ added)%string /\
    (written env u r s = Return tt ->
     added = block (now_isoformat env s) u r /\ fst out = Return tt).
Proof.
  cbv zeta. rewrite save_conversation_unfold. cbv zeta. unfold written.
  fold (extended u r s).
  destruct (append_block_effect env (now_isoformat env s) u r (extended u r s))
    as (_ & Hout & Hlogs & _ & added & Hlog & Hall).
  destruct (append_block env (now_isoformat env s) u r (extended u r s))
    as [[[]|[d|]] s']; cbn [fst snd with_world world stdout conversation_log
                              logs put_log] in *.
  all: split; [exact Hout|]; split;
    [rewrite Hlogs; first [now exists [] ; rewrite app_nil_r | eexists; reflexivity]|];
    exists added; split; [exact Hlog|];
    intros H; first [discriminate H | split; [now apply Hall | reflexivity]].
Qed.

(** The handlers of the loop only add to the console and to the log. *)
Lemma turn_handlers_grow (typed : result string) (s : State) :
  let body := snd (turn_body env typed s) in
  let out := snd (turn env typed s) in
  (exists more, stdout (world out) = stdout (world body) ++ more) /\
  (exists more, logs (world out) = logs (world body) ++ more).
Proof.
  cbv zeta. unfold turn.
  destruct (turn_body env typed s) as [[c|[d|]] s'].
  - split; exists []; cbn [snd]; now rewrite app_nil_r.
  - split; eexists; cbn; reflexivity.
  - split; [eexists; cbn; reflexivity|].
    exists []. cbn. now rewrite app_nil_r.
Qed.

Lemma turn_transcript_grows (typed : result string) (s : State) :
  exists added,
    conversation_log (world (snd (turn env typed s))) =
    (conversation_log (world s) ++ added)%string.
Proof.
  destruct (turn_handlers env typed s) as (_ & _ & ->).
  assert (Hsame : forall s', conversation_log (world s') = conversation_log (world s) ->
            exists added, conversation_log (world s') =
                          (conversation_log (world s) ++ added)%string).
  { intros s' ->. exists "". now rewrite append_nil_r. }
  destruct typed as [raw|e]; [|apply Hsame; reflexivity].
  destruct (String.eqb_spec (lower env (strip raw)) "exit") as [Hx|Hx];
    [rewrite (turn_body_exit env raw s Hx); apply Hsame; reflexivity|].
  destruct (String.eqb_spec (lower env (strip raw)) "clear") as [Hc|Hc];
    [rewrite (turn_body_clear env raw s Hc); apply Hsame; reflexivity|].
  destruct (String.eqb_spec (strip raw) "") as [He|He];
    [rewrite (turn_body_empty env raw s He); apply Hsame; reflexivity|].
  rewrite (turn_body_message env raw s (conj Hx (conj Hc He))).
  pose proof (moderate_content_transcript env (strip raw) (prompted s)) as Hm.
  destruct (moderate_content env (strip raw) (prompted s)) as [[[|]|e] s1];
    cbn [snd] in Hm; try (apply Hsame; exact Hm).
  match goal with
  | |- context [get_ai_response env ?u ?s2] =>
      pose proof (get_ai_response_transcript env u s2) as Hg;
      destruct (get_ai_response env u s2) as [[ai|e] s3]
  end; cbn [snd with_world world conversation_log put_stdout] in Hg;
    [|apply Hsame; cbn [snd]; now rewrite Hg].
  match goal with
  | |- context [save_conversation env ?u ?r ?s4] =>
      destruct (save_conversation_files u r s4)
        as (_ & _ & done & Hs & _);
      destruct (save_conversation env u r s4) as [[[]|e] s5]
  end; cbn [snd with_world world conversation_log put_stdout] in Hs |- *;
    exists done; rewrite Hs, Hg, Hm; reflexivity.
Qed.

Lemma loop_transcript_grows (reads : list (result string)) :
  forall s, exists added,
    conversation_log (world (snd (loop env reads s))) =
    (conversation_log (world s) ++ added)%string.
Proof.
  induction reads as [|typed rest IH]; intros s.
  - exists "". cbn. now rewrite append_nil_r.
  - cbn [loop]. unfold bind.
    destruct (turn_transcript_grows typed s) as [a Ha].
    destruct (turn env typed s) as [[[|]|e] s']; cbn [snd] in Ha |- *;
      try (now exists a).
    destruct (IH s') as [b Hb]. exists (a ++ b)%string.
    now rewrite Hb, Ha, append_assoc.
Qed.

End LoopFacts.

(** ** The properties *)

(** X1.  A turn whose input, trimmed and in lower case, is [exit] prints the
    farewell and ends the loop: whatever would be typed afterwards is not
    read, no request is sent, and the session and the transcript stay as
    they were. *)
Theorem exit_ends_the_loop
        (env : Env) (raw : string) (rest : list (result string)) (s : State) :
  lower env (strip raw) = "exit" ->
  loop env (Return raw :: rest) s =
    (Return Exited,
     with_world (put_stdout (nl ++ "Thanks for chatting! Have a great trip!"))
                (prompted s)) /\
  let out := snd (loop env (Return raw :: rest) s) in
  self out = self s /\
  calls (world out) = calls (world s) /\
  conversation_log (world out) = conversation_log (world s) /\
  logs (world out) = logs (world s).
Proof.
  intros H.
  assert (Hl : loop env (Return raw :: rest) s =
    (Return Exited,
     with_world (put_stdout (nl ++ "Thanks for chatting! Have a great trip!"))
                (prompted s))).
  { cbn [loop]. unfold bind, turn. rewrite (turn_body_exit env raw s H).
    reflexivity. }
  split; [exact Hl|]. cbv zeta. rewrite Hl. repeat split.
Qed.

Lemma exit_ends_the_loop_witness :
  fst (loop Sample.env [Return (" Exit" ++ Sample.nbsp)%string; Return "Hello"]
            Sample.chatted)
  = Return Exited /\
  calls (world (snd (loop Sample.env
                       [Return (" Exit" ++ Sample.nbsp)%string; Return "Hello"]
                       Sample.chatted))) = [].
Proof.
  destruct (exit_ends_the_loop Sample.env (" Exit" ++ Sample.nbsp)%string
              [Return "Hello"] Sample.chatted eq_refl) as (Hl & _ & Hc & _).
  split; [now rewrite Hl | exact Hc].
Defined.

(** X2.  A line of white space only (the empty line too) is answered by the
    request to enter a message: no request is sent, the session, the
    transcript and the log stay as they were, and the loop goes on. *)
Theorem blank_turn (env : Env) (raw : string) (s : State) :
  blank raw = true ->
  let out := turn env (Return raw) s in
  fst out = Return Continue /\
  stdout (world (snd out)) =
    stdout (world s) ++ [PROMPT; "Please enter a message!"] /\
  self (snd out) = self s /\
  calls (world (snd out)) = calls (world s) /\
  conversation_log (world (snd out)) = conversation_log (world s) /\
  logs (world (snd out)) = logs (world s).
Proof.
  intros H. cbv zeta. unfold turn.
  rewrite (turn_body_empty env raw s (strip_blank raw H)).
  cbn [fst snd with_world prompted self world calls conversation_log stdout
       logs put_stdout].
  rewrite <- app_assoc. repeat split.
Qed.

Lemma blank_turn_witness :
  let line := (" " ++ Sample.nbsp ++ Sample.wide_space)%string in
  calls (world (snd (turn Sample.env (Return line) Sample.chatted))) = [] /\
  conversation_history
    (self (snd (turn Sample.env (Return line) Sample.chatted)))
  = exchange "Hello" "Hi there!".
Proof.
  destruct (blank_turn Sample.env (" " ++ Sample.nbsp ++ Sample.wide_space)%string
              Sample.chatted eq_refl)
    as (_ & _ & Hself & Hcalls & _).
  split; [exact Hcalls | now rewrite Hself].
Defined.

(** X3.  A failed read (the end of the input, say) does not end the loop:
    the error is printed and logged and the loop asks again; so a loop that
    only meets failed reads never exits and never touches the session. *)
Theorem read_errors_never_exit (env : Env) (d : string) (n : nat) (s : State) :
  let out := loop env (repeat (Raise (Exception d)) n) s in
  fst out = Return Reading /\
  self (snd out) = self s /\
  calls (world (snd out)) = calls (world s) /\
  conversation_log (world (snd out)) = conversation_log (world s) /\
  stdout (world (snd out)) =
    stdout (world s) ++
    List.concat (repeat [PROMPT; (nl ++ "An error occurred: " ++ d)%string] n) /\
  logs (world (snd out)) =
    logs (world s) ++
    repeat (ERROR, ("Unexpected error in main loop: " ++ d)%string) n.
Proof.
  cbv zeta. revert s. induction n as [|n IH]; intros s.
  - cbn [repeat loop List.concat]. unfold ret. cbn [fst snd].
    rewrite !app_nil_r. repeat split.
  - cbn [repeat].
    rewrite (loop_continues env (Raise (Exception d)) _ s _ eq_refl).
    match goal with
    | |- context [loop env _ ?s'] =>
        destruct (IH s') as (H1 & H2 & H3 & H4 & H5 & H6)
    end.
    rewrite H1, H2, H3, H4, H5, H6.
    cbn [with_world prompted self world calls conversation_log stdout logs
         put_stdout put_log List.concat app].
    rewrite <- !app_assoc. repeat split.
Qed.

(** X4.  A turn never raises, and it ends the loop in two cases only: the
    input is [exit], or a [KeyboardInterrupt] was raised during the turn. *)
Theorem turn_breaks_on_exit_or_interrupt
        (env : Env) (typed : result string) (s : State) :
  (exists c, fst (turn env typed s) = Return c) /\
  (fst (turn env typed s) = Return Break <->
   (exists raw, typed = Return raw /\ lower env (strip raw) = "exit") \/
   fst (turn_body env typed s) = Raise KeyboardInterrupt).
Proof.
  split; [apply turn_returns|].
  unfold turn.
  destruct typed as [raw|[d|]].
  - destruct (String.eqb_spec (lower env (strip raw)) "exit") as [Hx|Hx].
    { rewrite (turn_body_exit env raw s Hx). cbn [fst]. split; [|reflexivity].
      intros _. left. now exists raw. }
    assert (Hno : ~ exists raw', Return raw = Return raw' /\
                                 lower env (strip raw') = "exit").
    { intros (raw' & Heq & H'). injection Heq as <-. exact (Hx H'). }
    destruct (turn_body env (Return raw) s) as [[[|]|[d|]] s'] eqn:Hb;
      cbn [fst]; (split; [intros H | intros [H|H]]);
      try discriminate H; try (now elim Hno); try reflexivity;
      try (right; reflexivity).
    exfalso.
    (* the body returned Break without the input being exit *)
    destruct (String.eqb_spec (lower env (strip raw)) "clear") as [Hc|Hc];
      [rewrite (turn_body_clear env raw s Hc) in Hb; discriminate Hb|].
    destruct (String.eqb_spec (strip raw) "") as [He|He];
      [rewrite (turn_body_empty env raw s He) in Hb; discriminate Hb|].
    rewrite (turn_body_message env raw s (conj Hx (conj Hc He))) in Hb.
    destruct (moderate_content env (strip raw) (prompted s)) as [[[|]|e] s1];
      try discriminate Hb.
    destruct (get_ai_response env (strip raw) _) as [[ai|e] s2];
      try discriminate Hb.
    destruct (save_conversation env (strip raw) ai _) as [[[]|e] s3];
      discriminate Hb.
  - cbn [fst turn_body]. split; [intros H; discriminate H|].
    intros [(raw & H & _)|H]; discriminate H.
  - cbn [fst]. split; [intros _; right; reflexivity | reflexivity].
Qed.

(** X5.  A [KeyboardInterrupt] that arrives while the completion is awaited
    ends the loop with the goodbye; the exchange in flight is dropped: the
    history and the transcript are as before the turn. *)
Theorem interrupt_during_completion
        (env : Env) (raw : string) (s s1 : State) :
  is_message env (strip raw) ->
  moderate_content env (strip raw) (prompted s) = (Return true, s1) ->
  chat_completions_create env
    (with_world (put_stdout (nl ++ "Thinking...")) s1)
    (deployed_model (self s1)) (build_messages (self s1) (strip raw)) SAMPLING
    = Raise KeyboardInterrupt ->
  let out := turn env (Return raw) s in
  fst out = Return Break /\
  self (snd out) = self s /\
  conversation_log (world (snd out)) = conversation_log (world s) /\
  stdout (world (snd out)) =
    stdout (world s1) ++ [(nl ++ "Thinking...")%string; (nl ++ nl ++ " Goodbye!")%string].
Proof.
  intros Hmsg Hm Hc. cbv zeta.
  pose proof (moderate_content_self env (strip raw) (prompted s)) as Hs.
  pose proof (moderate_content_transcript env (strip raw) (prompted s)) as Hl.
  rewrite Hm in Hs, Hl. cbn [snd] in Hs, Hl.
  unfold turn. rewrite (turn_body_message env raw s Hmsg), Hm.
  rewrite get_ai_response_cases. cbv zeta.
  cbn [with_world self world] in *. rewrite Hc.
  cbn [fst snd bind print ret with_world self world stdout conversation_log
       put_stdout put_call].
  unfold bind, print, ret.
  cbn [fst snd with_world self world stdout conversation_log put_stdout put_call].
  rewrite <- app_assoc. repeat split; assumption.
Qed.

Lemma interrupt_during_completion_witness :
  fst (turn (Sample.with_completion (fun _ _ _ _ => Raise KeyboardInterrupt)
                                     Sample.env)
            (Return "Hello") Sample.chatted) = Return Break.
Proof.
  eapply (interrupt_during_completion
            (Sample.with_completion (fun _ _ _ _ => Raise KeyboardInterrupt)
                                    Sample.env)
            "Hello" Sample.chatted).
  - repeat split; discriminate.
  - reflexivity.
  - reflexivity.
Defined.

(** X6.  [moderate_content] answers [False] exactly when the service returns
    a first result that is flagged; the warning then names the categories
    whose flag is set, each as often and in the order in which the response
    has it, joined by a comma and a blank, and no other category. *)
Theorem moderation_refuses_iff_flagged (env : Env) (text : string) (s : State) :
  (fst (moderate_content env text s) = Return false <->
   exists m rest,
     moderations_create env s text = Return (m :: rest) /\ flagged m = true) /\
  (forall m rest,
      moderations_create env s text = Return (m :: rest) ->
      flagged m = true ->
      logs (world (snd (moderate_content env text s))) =
        logs (world s) ++
        [(WARNING,
          ("Content flagged for: " ++
           join ", "
             (map fst (filter (fun category => snd category) (categories m))))%string)]
      /\ stdout (world (snd (moderate_content env text s))) = stdout (world s)).
Proof.
  rewrite moderate_content_cases. cbv zeta. split.
  - split.
    + destruct (moderations_create env s text) as [[|m l]|[d|]];
        cbn [fst]; try discriminate.
      destruct (flagged m) eqn:Hf; cbn [fst]; [|discriminate].
      intros _. exists m, l. split; [reflexivity | exact Hf].
    + intros (m & rest & -> & ->). reflexivity.
  - intros m rest -> ->. split; reflexivity.
Qed.

Lemma moderation_refuses_iff_flagged_witness :
  logs (world (snd (moderate_content
                      (Sample.with_moderation (fun _ _ => Return Sample.rude)
                                              Sample.env)
                      "Hello" Sample.fresh)))
  = [(WARNING, "Content flagged for: hate, violence")].
Proof.
  destruct (moderation_refuses_iff_flagged
              (Sample.with_moderation (fun _ _ => Return Sample.rude) Sample.env)
              "Hello" Sample.fresh) as [_ H].
  destruct (H (mkModeration true [("hate", true); ("sexual", false);
                                  ("violence", true)]) [] eq_refl eq_refl)
    as [Hlogs _].
  rewrite Hlogs. reflexivity.
Defined.

(** X7.  A moderation response without any result is handled like a failed
    request: the index error is logged, the notice is printed and the text
    is let through. *)
Theorem moderation_without_results (env : Env) (text : string) (s : State) :
  moderations_create env s text = Return [] ->
  let out := moderate_content env text s in
  fst out = Return true /\
  logs (world (snd out)) =
    logs (world s) ++
    [(ERROR, "Content moderation failed: list index out of range")] /\
  stdout (world (snd out)) =
    stdout (world s) ++
    ["Content moderation unavailable, proceeding without filtering..."].
Proof.
  intros H. cbv zeta. rewrite moderate_content_cases. cbv zeta. rewrite H.
  cbn [fst snd with_world world logs stdout put_log put_stdout put_call].
  repeat split.
Qed.

Lemma moderation_without_results_witness :
  fst (moderate_content
         (Sample.with_moderation (fun _ _ => Return []) Sample.env)
         "Hello" Sample.fresh) = Return true.
Proof.
  apply (moderation_without_results
           (Sample.with_moderation (fun _ _ => Return []) Sample.env)
           "Hello" Sample.fresh).
  reflexivity.
Defined.

(** X8.  A completion response without any choice gives the error reply for
    the index error, which is logged. *)
Theorem completion_without_choices (env : Env) (u : string) (s : State) :
  chat_completions_create env s (deployed_model (self s))
    (build_messages (self s) u) SAMPLING = Return [] ->
  let out := get_ai_response env u s in
  fst out = Return "Sorry, I encountered an error: list index out of range" /\
  logs (world (snd out)) =
    logs (world s) ++
    [(ERROR, "Error getting AI response: list index out of range")].
Proof.
  intros H. cbv zeta. rewrite get_ai_response_cases. cbv zeta. rewrite H.
  cbn [fst snd with_world world logs put_log put_call].
  split; reflexivity.
Qed.

Lemma completion_without_choices_witness :
  fst (get_ai_response
         (Sample.with_completion (fun _ _ _ _ => Return []) Sample.env)
         "Hello" Sample.fresh)
  = Return "Sorry, I encountered an error: list index out of range".
Proof.
  apply (completion_without_choices
           (Sample.with_completion (fun _ _ _ _ => Return []) Sample.env)
           "Hello" Sample.fresh).
  reflexivity.
Defined.

(** X9.  [get_ai_response] returns the content of the first choice as it
    is, [None] when the service left it null, whatever the other choices,
    and then logs nothing; it never prints; it raises nothing but a
    [KeyboardInterrupt] of the request, and returns whenever the request
    raises none. *)
Theorem get_ai_response_outcomes (env : Env) (u : string) (s : State) :
  let answer :=
    chat_completions_create env s (deployed_model (self s))
      (build_messages (self s) u) SAMPLING in
  let out := get_ai_response env u s in
  (forall reply others,
      answer = Return (reply :: others) ->
      fst out = Return reply /\ logs (world (snd out)) = logs (world s)) /\
  (forall others,
      answer = Return (NoneValue :: others) -> fst out = Return NoneValue) /\
  (forall e, fst out = Raise e ->
             e = KeyboardInterrupt /\ answer = Raise KeyboardInterrupt) /\
  (answer <> Raise KeyboardInterrupt -> exists reply, fst out = Return reply) /\
  stdout (world (snd out)) = stdout (world s).
Proof.
  cbv zeta. rewrite get_ai_response_cases. cbv zeta.
  destruct (chat_completions_create env s _ _ _) as [[|m l]|[d|]];
    cbn [fst snd with_world world logs stdout put_log put_call].
  - split; [intros ? ? H; discriminate H|].
    split; [intros ? H; discriminate H|].
    split; [intros e H; discriminate H|].
    split; [intros _; eexists; reflexivity | reflexivity].
  - split; [intros ? ? H; injection H as <- _; split; reflexivity|].
    split; [intros ? H; injection H as -> _; reflexivity|].
    split; [intros e H; discriminate H|].
    split; [intros _; eexists; reflexivity | reflexivity].
  - split; [intros ? ? H; discriminate H|].
    split; [intros ? H; discriminate H|].
    split; [intros e H; discriminate H|].
    split; [intros _; eexists; reflexivity | reflexivity].
  - split; [intros ? ? H; discriminate H|].
    split; [intros ? H; discriminate H|].
    split; [intros e H; injection H as <-; split; reflexivity|].
    split; [intros H; now elim H | reflexivity].
Qed.

Lemma get_ai_response_outcomes_witness :
  fst (get_ai_response
         (Sample.with_completion
            (fun _ _ _ _ => Return [NoneValue; Str "Hi there!"]) Sample.env)
         "Hello" Sample.fresh)
  = Return NoneValue.
Proof.
  destruct (get_ai_response_outcomes
              (Sample.with_completion
                 (fun _ _ _ _ => Return [NoneValue; Str "Hi there!"]) Sample.env)
              "Hello" Sample.fresh) as (_ & H & _).
  exact (H [Str "Hi there!"] eq_refl).
Defined.

(** X10.  A message that passes the moderation and is answered: the reply
    (the text [None] for a null content) is printed after the notice of
    waiting, the exchange (the trimmed input and the reply as it is) joins
    the history, and, when the disk does not fail, its block joins the
    transcript; the loop goes on. *)
Theorem answered_turn
        (env : Env) (raw : string) (r : Content) (s s1 s2 : State) :
  is_message env (strip raw) ->
  moderate_content env (strip raw) (prompted s) = (Return true, s1) ->
  get_ai_response env (strip raw)
    (with_world (put_stdout (nl ++ "Thinking...")) s1) = (Return r, s2) ->
  let shown := with_world (put_stdout (nl ++ "Assistant: " ++ format r)) s2 in
  written env (strip raw) r shown = Return tt ->
  let out := turn env (Return raw) s in
  fst out = Return Continue /\
  conversation_history (self (snd out)) =
    conversation_history (self s)
    ++ [mkMessage user (strip raw); mkMessage assistant r] /\
  stdout (world (snd out)) =
    stdout (world s1)
    ++ [(nl ++ "Thinking...")%string;
        (nl ++ "Assistant: " ++ format r)%string] /\
  conversation_log (world (snd out)) =
    (conversation_log (world s) ++
     nl ++ "[" ++ now_isoformat env shown ++ "]" ++ nl ++
     "User: " ++ strip raw ++ nl ++
     "Assistant: " ++ format r ++ nl ++
     "--------------------------------------------------" ++ nl)%string.
Proof.
  intros Hmsg Hm Hg shown Hw out. subst out.
  pose proof (moderate_content_self env (strip raw) (prompted s)) as Hms.
  pose proof (moderate_content_transcript env (strip raw) (prompted s)) as Hml.
  rewrite Hm in Hms, Hml. cbn [snd] in Hms, Hml.
  pose proof (get_ai_response_self env (strip raw)
                (with_world (put_stdout (nl ++ "Thinking...")) s1)) as Hgs.
  pose proof (get_ai_response_transcript env (strip raw)
                (with_world (put_stdout (nl ++ "Thinking...")) s1)) as Hgl.
  pose proof (get_ai_response_stdout env (strip raw)
                (with_world (put_stdout (nl ++ "Thinking...")) s1)) as Hgo.
  rewrite Hg in Hgs, Hgl, Hgo.
  cbn [snd with_world self world conversation_log stdout put_stdout]
    in Hgs, Hgl, Hgo.
  destruct (save_conversation_files env (strip raw) r shown)
    as (Hso & _ & added & Hsl & Hall).
  destruct (Hall Hw) as [-> Hret].
  pose proof (save_conversation_self env (strip raw) r shown) as Hss.
  unfold turn. rewrite (turn_body_message env raw s Hmsg), Hm, Hg.
  fold shown.
  destruct (save_conversation env (strip raw) r shown) as [[[]|e] s3];
    cbn [fst snd] in *; [|discriminate Hret].
  split; [reflexivity|]. split; [|split].
  - rewrite Hss. subst shown.
    cbn [set_history conversation_history with_world self].
    now rewrite Hgs, Hms.
  - rewrite Hso. subst shown. cbn [with_world world stdout put_stdout].
    rewrite Hgo, <- app_assoc. reflexivity.
  - rewrite Hsl. unfold shown, block.
    cbn [with_world world conversation_log put_stdout].
    rewrite Hgl, Hml, !append_assoc. reflexivity.
Qed.

Lemma answered_turn_witness :
  conversation_history
    (self (snd (turn Sample.env (Return (Sample.nbsp ++ " Hello " ++ Sample.nbsp)%string)
                     Sample.fresh)))
  = [mkMessage user "Hello"; mkMessage assistant "Hi there!"].
Proof.
  eapply (answered_turn Sample.env
            (Sample.nbsp ++ " Hello " ++ Sample.nbsp)%string
            (Str "Hi there!") Sample.fresh).
  - repeat split; discriminate.
  - reflexivity.
  - reflexivity.
  - reflexivity.
Defined.

(** X11.  A completion that fails is recorded like an answer: the error reply
    is printed as the assistant's line and the exchange made of the input
    and the error reply joins the history. *)
Theorem failed_completion_is_recorded
        (env : Env) (raw d : string) (s s1 : State) :
  is_message env (strip raw) ->
  moderate_content env (strip raw) (prompted s) = (Return true, s1) ->
  chat_completions_create env
    (with_world (put_stdout (nl ++ "Thinking...")) s1)
    (deployed_model (self s1)) (build_messages (self s1) (strip raw)) SAMPLING
    = Raise (Exception d) ->
  let reply := ("Sorry, I encountered an error: " ++ d)%string in
  let out := turn env (Return raw) s in
  conversation_history (self (snd out)) =
    conversation_history (self s)
    ++ [mkMessage user (strip raw); mkMessage assistant reply] /\
  In (nl ++ "Assistant: " ++ reply)%string (stdout (world (snd out))) /\
  In (ERROR, ("Error getting AI response: " ++ d)%string)
     (logs (world (snd out))).
Proof.
  intros Hmsg Hm Hc reply out. subst out.
  pose proof (moderate_content_self env (strip raw) (prompted s)) as Hms.
  rewrite Hm in Hms. cbn [snd] in Hms.
  set (shown :=
         with_world (put_stdout (nl ++ "Assistant: " ++ reply))
           (with_world (put_log ERROR ("Error getting AI response: " ++ d))
              (with_world
                 (put_call (ChatCompletionsCreate (deployed_model (self s1))
                              (build_messages (self s1) (strip raw)) SAMPLING))
                 (with_world (put_stdout (nl ++ "Thinking...")) s1)))).
  assert (Hbody : snd (turn_body env (Return raw) s) =
                  snd (save_conversation env (strip raw) reply shown)).
  { rewrite (turn_body_message env raw s Hmsg), Hm.
    rewrite get_ai_response_cases. cbv zeta.
    cbn [with_world self world]. rewrite Hc. cbn [format].
    fold reply. fold shown.
    destruct (save_conversation env (strip raw) reply shown) as [[[]|e] s5];
      reflexivity. }
  destruct (turn_handlers env (Return raw) s) as (Hself & _ & _).
  destruct (turn_handlers_grow env (Return raw) s) as ((o & Ho) & (l & Hl)).
  cbv zeta in Ho, Hl. rewrite Hbody in Hself, Ho, Hl.
  destruct (save_conversation_files env (strip raw) reply shown)
    as (Hso & (more & Hsl) & _).
  cbv zeta in Hso, Hsl.
  split; [|split].
  - rewrite Hself, save_conversation_self. unfold shown.
    cbn [set_history conversation_history with_world self].
    now rewrite Hms.
  - rewrite Ho, Hso. unfold shown. cbn [with_world world stdout put_stdout].
    apply in_or_app. left. apply in_or_app. right. left. reflexivity.
  - rewrite Hl, Hsl. unfold shown.
    cbn [with_world world logs put_stdout put_log].
    apply in_or_app. left. apply in_or_app. left.
    apply in_or_app. right. left. reflexivity.
Qed.

Lemma failed_completion_is_recorded_witness :
  conversation_history
    (self (snd (turn
       (Sample.with_completion
          (fun _ _ _ _ => Raise (Exception "Connection error.")) Sample.env)
       (Return "Hello") Sample.fresh)))
  = [mkMessage user "Hello";
     mkMessage assistant "Sorry, I encountered an error: Connection error."].
Proof.
  eapply (failed_completion_is_recorded
            (Sample.with_completion
               (fun _ _ _ _ => Raise (Exception "Connection error.")) Sample.env)
            "Hello" "Connection error." Sample.fresh).
  - repeat split; discriminate.
  - reflexivity.
  - reflexivity.
Defined.

(** X12.  The requests of a turn: at most two; none unless the input is a
    message; the moderation request is for the trimmed input; and a
    completion request is only sent right after the moderation request,
    for the model of the session and with the fixed sampling parameters. *)
Theorem completion_follows_moderation (env : Env) (raw : string) (s : State) :
  exists new,
    calls (world (snd (turn env (Return raw) s))) = calls (world s) ++ new /\
    List.length new <= 2 /\
    (new <> [] -> is_message env (strip raw) /\
                  hd_error new = Some (ModerationsCreate (strip raw))) /\
    (forall model sent sampling,
        In (ChatCompletionsCreate model sent sampling) new ->
        new = [ModerationsCreate (strip raw);
               ChatCompletionsCreate model sent sampling] /\
        model = deployed_model (self s) /\
        sampling = SAMPLING).
Proof.
  destruct (turn_requests env raw s) as (new & Hc & Hn).
  exists new. split; [exact Hc|].
  split; [destruct Hn as [-> | [-> | ->]]; cbn; lia|].
  split.
  - intros Hne.
    assert (Hm : is_message env (strip raw)).
    { destruct (String.eqb_spec (lower env (strip raw)) "exit") as [Hx|Hx];
        [exfalso|destruct (String.eqb_spec (lower env (strip raw)) "clear") as [Hl|Hl];
                 [exfalso|destruct (String.eqb_spec (strip raw) "") as [He|He];
                          [exfalso|exact (conj Hx (conj Hl He))]]].
      all: destruct (turn_handlers env (Return raw) s) as (_ & Hh & _);
        rewrite Hh in Hc; clear Hh.
      - rewrite (turn_body_exit env raw s Hx) in Hc. cbn in Hc.
        rewrite <- (app_nil_r (calls (world s))) in Hc at 1.
        apply app_inv_head in Hc. now subst.
      - rewrite (turn_body_clear env raw s Hl) in Hc. cbn in Hc.
        rewrite <- (app_nil_r (calls (world s))) in Hc at 1.
        apply app_inv_head in Hc. now subst.
      - rewrite (turn_body_empty env raw s He) in Hc. cbn in Hc.
        rewrite <- (app_nil_r (calls (world s))) in Hc at 1.
        apply app_inv_head in Hc. now subst. }
    split; [exact Hm|].
    destruct Hn as [-> | [-> | ->]]; [now elim Hne | reflexivity..].
  - intros model sent sampling Hin.
    destruct Hn as [-> | [-> | ->]].
    + destruct Hin.
    + destruct Hin as [Hin|[]]. discriminate Hin.
    + destruct Hin as [Hin|[Hin|[]]]; [discriminate Hin|].
      injection Hin as <- <- <-. repeat split.
Qed.

(** X13.  The window of recent history sent with a request never splits an
    exchange: in every session state the last 20 entries are again whole
    exchanges, a user entry first, so that the request reads system, user,
    assistant, ..., user. *)
Theorem recent_history_keeps_exchanges (env : Env) (s : State) :
  reachable env s ->
  alternating (last_n 20 (conversation_history (self s))) = true /\
  forall u,
    exists window,
      build_messages (self s) u =
        mkMessage system TRAVEL_PROMPT :: window ++ [mkMessage user u] /\
      alternating window = true /\
      List.length window <= 20.
Proof.
  intros Hr. destruct (reachable_inv env s Hr) as [Hp Ha].
  assert (Hw : alternating (last_n 20 (conversation_history (self s))) = true).
  { unfold last_n.
    pose proof (alternating_even _ Ha) as He.
    apply Nat.even_spec in He. destruct He as [m Hm].
    rewrite Hm. replace (2 * m - 20) with (2 * (m - 10)) by lia.
    now apply alternating_skipn_even. }
  split; [exact Hw|].
  intros u. exists (last_n 20 (conversation_history (self s))).
  split; [now rewrite build_messages_shape, Hp|].
  split; [exact Hw | apply last_n_length].
Qed.

Lemma recent_history_keeps_exchanges_witness :
  alternating
    (last_n 20
       (conversation_history
          (self (snd (run_chatbot Sample.env long_talk Sample.fresh)))))
  = true.
Proof.
  apply (recent_history_keeps_exchanges Sample.env).
  apply reach_run.
  apply (reach_init Sample.env (Some "https://travel.example.net/")
           (Some "k-123") (Some "gpt-4o") (Some "2024-02-01")
           Sample.empty_world).
  reflexivity.
Defined.

(** X14.  After [clear] the conversation starts afresh: the next completion
    request carries the system prompt and the new message, and nothing of
    what was said before. *)
Theorem clear_forgets (env : Env) (raw u : string) (s : State) :
  lower env (strip raw) = "clear" ->
  let cleared := snd (turn env (Return raw) s) in
  calls (world (snd (get_ai_response env u cleared))) =
    calls (world s)
    ++ [ChatCompletionsCreate (deployed_model (self s))
          [mkMessage system (system_prompt (self s)); mkMessage user u]
          SAMPLING].
Proof.
  intros H. cbv zeta. rewrite get_ai_response_calls.
  unfold turn. rewrite (turn_body_clear env raw s H). reflexivity.
Qed.

Lemma clear_forgets_witness :
  calls (world (snd (get_ai_response Sample.env "And Rome?"
                       (snd (turn Sample.env (Return "clear") Sample.chatted)))))
  = [ChatCompletionsCreate (Some "gpt-4o")
       [mkMessage system TRAVEL_PROMPT; mkMessage user "And Rome?"] SAMPLING].
Proof.
  apply (clear_forgets Sample.env "clear" "And Rome?" Sample.chatted).
  reflexivity.
Defined.

(** X15.  The transcript is only ever appended to: after a run of the loop
    over any inputs, with any answers of the service and any failures of
    the disk, what the transcript held before is still its beginning. *)
Theorem transcript_only_grows
        (env : Env) (reads : list (result string)) (s : State) :
  exists added,
    conversation_log (world (snd (run_chatbot env reads s))) =
    (conversation_log (world s) ++ added)%string.
Proof.
  unfold run_chatbot, bind, print.
  match goal with
  | |- context [loop env reads ?s'] =>
      destruct (loop_transcript_grows env reads s') as [added Ha]
  end.
  exists added. exact Ha.
Qed.

(** X16.  Once the session is constructed, [main] runs the loop and never
    prints the startup failure: the loop raises nothing, so the handler of
    [main] is not reached. *)
Theorem constructed_session_runs
        (env : Env) (getenv : string -> option string)
        (reads : list (result string)) (w w' : World) (bot : Bot) :
  init env (getenv "OPENAI_API_ENDPOINT") (getenv "OPENAI_API_KEY")
       (getenv "OPENAI_DEPLOYED_MODEL") (getenv "OPENAI_API_VERSION") w
    = (Return bot, w') ->
  exists st s,
    run_chatbot env reads (mkState bot w') = (Return st, s) /\
    main env getenv reads w = mkRun (Some (self s)) (Returned (Some st)) (world s) /\
    (reads = [] -> st = Reading /\ self s = bot).
Proof.
  intros Hi.
  assert (Hr : exists st, fst (run_chatbot env reads (mkState bot w')) = Return st).
  { unfold run_chatbot, bind, print. apply loop_returns. }
  destruct Hr as [st Hr].
  destruct (run_chatbot env reads (mkState bot w')) as [r s] eqn:Hrun.
  cbn [fst] in Hr. subst r.
  exists st, s. split; [reflexivity|]. split.
  - unfold main. rewrite Hi, Hrun. reflexivity.
  - intros ->. unfold run_chatbot, bind, print in Hrun. cbn [loop] in Hrun.
    unfold ret in Hrun. injection Hrun as <- <-. split; reflexivity.
Qed.

Lemma constructed_session_runs_witness :
  exists st s,
    run_chatbot Sample.env [Return "Hello"; Return "exit"]
                (mkState Sample.bot Sample.empty_world) = (Return st, s) /\
    main Sample.env Sample.getenv [Return "Hello"; Return "exit"]
         Sample.empty_world
      = mkRun (Some (self s)) (Returned (Some st)) (world s).
Proof.
  destruct (constructed_session_runs Sample.env Sample.getenv
              [Return "Hello"; Return "exit"] Sample.empty_world
              Sample.empty_world Sample.bot eq_refl)
    as (st & s & Hrun & Hmain & _).
  exists st, s. split; [exact Hrun | exact Hmain].
Defined.

(** X17.  When the file handler of the log cannot be set up, startup fails
    like a refused client: no session object, the failure and the
    remediation message on the console, and [main] returns. *)
Theorem logging_failure_is_fatal
        (env : Env) (getenv : string -> option string)
        (reads : list (result string)) (w : World) (d : string) :
  AzureOpenAI env (getenv "OPENAI_API_ENDPOINT") (getenv "OPENAI_API_KEY")
              (getenv "OPENAI_API_VERSION") = None ->
  FileHandler env w = Some (Exception d) ->
  let run := main env getenv reads w in
  chatbot run = None /\
  ending run = Returned None /\
  stdout (after run) =
    stdout w ++
    [("Failed to initialize chatbot: " ++ d)%string;
     "Please check your Azure OpenAI credentials and try again."] /\
  calls (after run) = calls w.
Proof.
  intros Hc Hf. cbv zeta. unfold main, init, setup_logging. rewrite Hc, Hf.
  cbn [chatbot ending after report_failure put_stdout stdout calls].
  rewrite <- app_assoc. repeat split.
Qed.

Lemma logging_failure_is_fatal_witness :
  chatbot (main log_unwritable Sample.getenv [Return "Hello"] Sample.empty_world)
  = None.
Proof.
  apply (logging_failure_is_fatal log_unwritable Sample.getenv [Return "Hello"]
           Sample.empty_world "[Errno 13] Permission denied: 'chatbot.log'");
    reflexivity.
Defined.

(** X18.  A [KeyboardInterrupt] raised while the session is constructed is
    not caught by [main]: nothing is printed and it propagates. *)
Theorem interrupt_at_startup_propagates
        (env : Env) (getenv : string -> option string)
        (reads : list (result string)) (w : World) :
  AzureOpenAI env (getenv "OPENAI_API_ENDPOINT") (getenv "OPENAI_API_KEY")
              (getenv "OPENAI_API_VERSION") = Some KeyboardInterrupt \/
  (AzureOpenAI env (getenv "OPENAI_API_ENDPOINT") (getenv "OPENAI_API_KEY")
               (getenv "OPENAI_API_VERSION") = None /\
   FileHandler env w = Some KeyboardInterrupt) ->
  main env getenv reads w = mkRun None (Propagated KeyboardInterrupt) w.
Proof.
  unfold main, init, setup_logging. intros [H | [Hc Hf]].
  - rewrite H. reflexivity.
  - rewrite Hc, Hf. reflexivity.
Qed.

Lemma interrupt_at_startup_propagates_witness :
  ending (main client_interrupted Sample.getenv [Return "Hello"]
               Sample.empty_world)
  = Propagated KeyboardInterrupt.
Proof.
  rewrite (interrupt_at_startup_propagates client_interrupted Sample.getenv
             [Return "Hello"] Sample.empty_world).
  - reflexivity.
  - left. reflexivity.
Defined.

(** X19.  A [KeyboardInterrupt] raised while the block is written is not
    caught by [save_conversation]: it propagates, nothing is logged, and
    the exchange, appended before the writing began, stays in the
    history. *)
Theorem interrupt_during_write (env : Env) (u r : string) (s : State) :
  written env u r s = Raise KeyboardInterrupt ->
  let out := save_conversation env u r s in
  fst out = Raise KeyboardInterrupt /\
  conversation_history (self (snd out)) =
    conversation_history (self s)
    ++ [mkMessage user u; mkMessage assistant r] /\
  logs (world (snd out)) = logs (world s).
Proof.
  intros H. cbv zeta. unfold written in H.
  split; [|split; [now rewrite save_conversation_self|]].
  all: rewrite save_conversation_unfold; cbv zeta; fold (extended u r s).
  all: destruct (append_block_effect env (now_isoformat env s) u r
                   (extended u r s)) as (_ & _ & Hlogs & _).
  all: destruct (append_block env (now_isoformat env s) u r (extended u r s))
         as [[[]|[d|]] s']; cbn [fst snd] in *; try discriminate H.
  - reflexivity.
  - exact Hlogs.
Qed.

Lemma interrupt_during_write_witness :
  conversation_history
    (self (snd (save_conversation write_interrupted "Hello" "Hi there!"
                  Sample.fresh)))
  = [mkMessage user "Hello"; mkMessage assistant "Hi there!"].
Proof.
  apply (interrupt_during_write write_interrupted "Hello" "Hi there!"
           Sample.fresh).
  reflexivity.
Defined.
